(** * Amazon_Bot/lambda_function.py: the RecommendPortfolio Lex handler

    A shallow embedding of the validator ([validate_data]), the response
    builders and the intent handler ([recommend_portfolio], [dispatch],
    [lambda_handler]) of [src/Amazon_Bot/lambda_function.py], and the
    properties of the specification proved about them.

    Conventions of the embedding.
    - A Python [str] is a Rocq [string]; the text is taken to be ASCII
      (for other text Python also accepts Unicode digits and spaces).
    - A Python value that is a [str] or [None] is an [option string]; a
      dict key likewise, so that [d !! Some "age"] is [d["age"]] and a
      lookup that finds nothing raises [KeyError].
    - The event passed to the handler is the only mutable object: the
      handler is a computation over it that returns a response or raises. *)

From Stdlib Require Import ZArith String Ascii List Bool Lia SpecFloat.
From stdpp Require Import base option gmap strings.
Import ListNotations.

(** ** The Python builtins the code calls *)

Module Py.

Local Open Scope Z_scope.

Definition code (c : ascii) : Z := Z.of_nat (nat_of_ascii c).

(** The six ASCII white-space characters that [int] and [float] strip. *)
Definition is_space (c : ascii) : bool :=
  ((9 <=? code c) && (code c <=? 13)) || (code c =? 32).

Definition is_digit (c : ascii) : bool :=
  (48 <=? code c) && (code c <=? 57).

Definition digit_value (c : ascii) : Z := code c - 48.

Definition is_char (k c : ascii) : bool := Ascii.eqb k c.

Definition lower (c : ascii) : ascii :=
  if (65 <=? code c) && (code c <=? 90)
  then ascii_of_nat (nat_of_ascii c + 32) else c.

Fixpoint lstrip (s : list ascii) : list ascii :=
  match s with
  | c :: rest => if is_space c then lstrip rest else s
  | [] => []
  end.

Definition strip (s : list ascii) : list ascii :=
  rev (lstrip (rev (lstrip s))).

(** An optional leading [+] or [-]; [true] stands for [-]. *)
Definition split_sign (s : list ascii) : bool * list ascii :=
  match s with
  | c :: rest =>
      if is_char "-" c then (true, rest)
      else if is_char "+" c then (false, rest)
      else (false, s)
  | [] => (false, [])
  end.

Definition Z_of_digits (ds : list ascii) : Z :=
  fold_left (fun acc d => 10 * acc + digit_value d) ds 0.

Definition signed (neg : bool) (z : Z) : Z := if neg then - z else z.

(** Digits of an [int] literal: one digit, then digits each preceded by
    at most one underscore; the result leaves the underscores out. *)
Fixpoint grouped_digits (s : list ascii) : option (list ascii) :=
  match s with
  | [] => None
  | c :: rest =>
      if is_digit c then
        match rest with
        | [] => Some [c]
        | c' :: rest' =>
            option_map (cons c)
              (if is_char "_" c' then grouped_digits rest'
               else grouped_digits rest)
        end
      else None
  end.

(** The interpreter's cap on the digits of a converted string
    ([sys.get_int_max_str_digits()]: 4300 by default since 3.11, 0 for no
    cap, as in older interpreters); strings of up to 640 digits always pass. *)
Definition over_digit_limit (int_max_str_digits : nat) (ds : list ascii) : bool :=
  let n := Z.of_nat (length ds) in
  (0 <? Z.of_nat int_max_str_digits) && (640 <? n)
  && (Z.of_nat int_max_str_digits <? n).

(** The sign and the digits of an [int] literal: white space around it is
    stripped, and nothing else may surround the digits. *)
Definition int_literal (s : string) : option (bool * list ascii) :=
  let '(neg, body) := split_sign (strip (list_ascii_of_string s)) in
  option_map (pair neg) (grouped_digits body).

(** [int(s)] for a string [s]; [None] stands for [ValueError]. *)
Definition int (int_max_str_digits : nat) (s : string) : option Z :=
  match int_literal s with
  | Some (neg, ds) =>
      if over_digit_limit int_max_str_digits ds then None
      else Some (signed neg (Z_of_digits ds))
  | None => None
  end.

(** Python floats are IEEE 754 binary64 numbers. *)
Definition prec : Z := 53.
Definition emax : Z := 1024.

Definition nan : spec_float := S754_nan.

(** A [float] literal may have single underscores between digits. *)
Fixpoint drop_underscores (prev : option ascii) (s : list ascii)
  : option (list ascii) :=
  match s with
  | [] => Some []
  | c :: rest =>
      if is_char "_" c then
        match prev, rest with
        | Some p, n :: _ =>
            if is_digit p && is_digit n
            then drop_underscores (Some c) rest else None
        | _, _ => None
        end
      else option_map (cons c) (drop_underscores (Some c) rest)
  end.

Fixpoint span_digits (s : list ascii) : list ascii * list ascii :=
  match s with
  | c :: rest =>
      if is_digit c
      then let '(ds, tl) := span_digits rest in (c :: ds, tl)
      else ([], s)
  | [] => ([], [])
  end.

Definition is_word (w : string) (s : list ascii) : bool :=
  String.eqb (string_of_list_ascii (map lower s)) w.

(** The exponent part of a literal: nothing, or [e], a sign and digits. *)
Definition exponent (s : list ascii) : option Z :=
  match s with
  | [] => Some 0
  | c :: rest =>
      if is_char "e" (lower c) then
        let '(neg, ds) := split_sign rest in
        match span_digits ds with
        | (d :: ds', []) => Some (signed neg (Z_of_digits (d :: ds')))
        | _ => None
        end
      else None
  end.

(** The binary64 number nearest to [m * 10 ^ e] (ties to even). *)
Definition float_of_decimal (neg : bool) (m e : Z) : spec_float :=
  match m with
  | Zpos p =>
      if 0 <=? e
      then binary_round prec emax neg (p * Z.to_pos (10 ^ e)) 0
      else SFdiv prec emax (S754_finite neg p 0)
                           (S754_finite false (Z.to_pos (10 ^ (- e))) 0)
  | _ => S754_zero neg
  end.

(** [float(s)] for a string [s]; [None] stands for [ValueError]. *)
Definition float (s : string) : option spec_float :=
  match drop_underscores None (strip (list_ascii_of_string s)) with
  | None => None
  | Some t =>
      let '(neg, body) := split_sign t in
      if is_word "inf" body || is_word "infinity" body
      then Some (S754_infinity neg)
      else if is_word "nan" body then Some nan
      else
        let '(ip, r1) := span_digits body in
        let '(fp, r2) :=
          match r1 with
          | c :: r => if is_char "." c then span_digits r else ([], r1)
          | [] => ([], [])
          end in
        match ip ++ fp with
        | [] => None
        | ds =>
            match exponent r2 with
            | Some e =>
                Some (float_of_decimal neg (Z_of_digits ds)
                        (e - Z.of_nat (length fp)))
            | None => None
            end
        end
  end.

(** A number the validator compares: an [int], or a [float]. *)
Inductive number :=
| Int (z : Z)
| Float (x : spec_float).

Definition float_of_int (k : Z) : spec_float :=
  binary_normalize prec emax k 0 false.

(** [a < k], [a > k] and [a <= k] for an [int] constant [k] that binary64
    holds exactly (here 1, 64 and 5000); every comparison with a
    not-a-number is [False]. *)
Definition lt (a : number) (k : Z) : bool :=
  match a with
  | Int z => z <? k
  | Float x => SFltb x (float_of_int k)
  end.

Definition gt (a : number) (k : Z) : bool :=
  match a with
  | Int z => k <? z
  | Float x => SFltb (float_of_int k) x
  end.

Definition le (a : number) (k : Z) : bool :=
  match a with
  | Int z => z <=? k
  | Float x => SFleb x (float_of_int k)
  end.

(** [str(v)] for a value that is a string or [None]. *)
Definition str (v : option string) : string :=
  match v with
  | Some s => s
  | None => "None"
  end.

End Py.


(** ** Requests, responses and exceptions *)

(** A slot bag: a dict from slot names to a string or [None]. *)
Abbreviation slot_bag := (gmap (option string) (option string)).

(** Session attributes are opaque: a dict of strings, or [None]. *)
Abbreviation attributes := (option (gmap string string)).

(** The event: [currentIntent.name], [currentIntent.slots],
    [invocationSource] and [sessionAttributes]. *)
Record intent_request := {
  currentIntent_name : string;
  currentIntent_slots : slot_bag;
  invocationSource : string;
  sessionAttributes : attributes
}.

(** [{"contentType": ..., "content": ...}] *)
Record message_dict := {
  contentType : string;
  content : string
}.

(** The dict [build_validation_result] makes; [message] is [None] when the
    dict has no such key. *)
Record validation_result := {
  isValid : bool;
  violatedSlot : option string;
  message : option message_dict
}.

Inductive dialog_action :=
| ElicitSlot (intentName : string) (slots : slot_bag)
             (slotToElicit : option string) (msg : message_dict)
| Delegate (slots : slot_bag)
| Close (fulfillmentState : string) (msg : message_dict).

Record response := {
  response_sessionAttributes : attributes;
  dialogAction : dialog_action
}.

Inductive exn :=
| KeyError (key : option string)
| Exception (text : string).

Inductive outcome (A : Type) :=
| Returns (a : A)
| Raises (e : exn).

Arguments Returns {A} a.
Arguments Raises {A} e.

(** ** Computations over the event

    A call either returns or raises, and leaves the event as it made it. *)

Definition Exec (A : Type) : Type :=
  intent_request -> outcome A * intent_request.

Definition ret {A} (a : A) : Exec A := fun ev => (Returns a, ev).

Definition raise {A} (e : exn) : Exec A := fun ev => (Raises e, ev).

Definition bind {A B} (c : Exec A) (k : A -> Exec B) : Exec B :=
  fun ev =>
    match c ev with
    | (Returns a, ev') => k a ev'
    | (Raises e, ev') => (Raises e, ev')
    end.

Declare Scope exec_scope.
Delimit Scope exec_scope with exec.
Bind Scope exec_scope with Exec.

Notation "x <- c ;; k" := (bind c (fun x => k))
  (at level 100, c at next level, right associativity) : exec_scope.
Notation "c ;; k" := (bind c (fun _ => k))
  (at level 100, right associativity) : exec_scope.

(** Reading a part of the event. *)
Definition read {A} (part : intent_request -> A) : Exec A :=
  fun ev => (Returns (part ev), ev).

(** [d[k]] *)
Definition getitem {V} (d : gmap (option string) V) (k : option string) : Exec V :=
  match d !! k with
  | Some v => ret v
  | None => raise (KeyError k)
  end.

(** [intent_request["currentIntent"]["slots"][k] = v]: the slot dict is
    the event's own, so the event changes. *)
Definition setitem_slots (k v : option string) : Exec unit :=
  fun ev =>
    (Returns tt,
     {| currentIntent_name := currentIntent_name ev;
        currentIntent_slots := <[k := v]> (currentIntent_slots ev);
        invocationSource := invocationSource ev;
        sessionAttributes := sessionAttributes ev |}).

(** ** String constants of the source *)

Definition nl : string := String (ascii_of_nat 10) EmptyString.

Definition spaces (n : nat) : string := string_of_list_ascii (repeat " "%char n).

(** A line of a triple-quoted literal: the line break, the indentation of
    the source line, and its text. *)
Definition line (indent : nat) (text : string) : string :=
  nl +:+ spaces indent +:+ text.

Definition empty_name_text : string :=
  line 16 "You provided an empty name..." +:+
  line 16 "Please try again." +:+
  line 16 EmptyString.

Definition too_young_text : string :=
  line 16 "You have to be at least 1 year old to seek investment advise..." +:+
  line 16 "Please provide a different age." +:+
  line 16 EmptyString.

Definition too_old_text : string :=
  line 16 "This service is only valid for people less than 65 years old..." +:+
  line 16 "Sorry, but we cannot help you today." +:+
  line 16 EmptyString.

Definition low_amount_text (amount : string) : string :=
  line 16 "You've got to be kidding me?!  I can't provide advise for $ " +:+
  amount +:+ "!" +:+
  line 16 "Please provide a high amount and try again." +:+
  line 16 EmptyString.

Definition unknown_risk_text : string := "I didn't get that, please try again...".

Definition recommendation_text (first_name initial_recommendation : string) : string :=
  first_name +:+ " thank you for your information;" +:+
  line 12 "based on the risk level you defined, my recommendation is to choose an investment portfolio with " +:+
  initial_recommendation +:+
  line 12 EmptyString.

Definition valid_levels : list string :=
  ["Maximum"; "Very High"; "High"; "Mid"; "Low"; "Very Low"; "None"]%string.

Definition risk_rec_map : gmap (option string) string :=
  list_to_map
    [ (Some "None", "100% bonds (AGG), 0% equities (SPY)");
      (Some "Very Low", "80% bonds (AGG), 20% equities (SPY)");
      (Some "Low", "60% bonds (AGG), 40% equities (SPY)");
      (Some "Mid", "40% bonds (AGG), 60% equities (SPY)");
      (Some "High", "20% bonds (AGG), 80% equities (SPY)");
      (Some "Very High", "0% bonds (AGG), 100% equities (SPY)") ]%string.


(** ** The functions of lambda_function.py *)

(** A block of statements inside a function either executes [return r]
    ([Some r]) or falls through to the statements after it ([None]). *)
Definition returning {R} (block : option R) (rest : R) : R :=
  match block with
  | Some r => r
  | None => rest
  end.

Notation "block 'or_continue' rest" := (returning block rest)
  (at level 100, right associativity, only parsing).

Section Handler.

(** Two settings of the interpreter the code runs on: the cap on the
    digits [int] converts, and the text [str] gives for a float (the
    shortest decimal that reads back as the same float), which the
    too-low-amount message embeds. *)
Variable int_max_str_digits : nat.
Variable float_repr : spec_float -> string.

Definition parse_int (n : string) : Py.number :=
  match Py.int int_max_str_digits n with
  | Some z => Py.Int z
  | None => Py.Float Py.nan
  end.

Definition parse_float (n : string) : spec_float :=
  match Py.float n with
  | Some x => x
  | None => Py.nan
  end.

Definition build_validation_result (is_valid : bool)
    (violated_slot message_content : option string) : validation_result :=
  match message_content with
  | None =>
      {| isValid := is_valid; violatedSlot := violated_slot; message := None |}
  | Some text =>
      {| isValid := is_valid;
         violatedSlot := violated_slot;
         message := Some {| contentType := "PlainText"; content := text |} |}
  end.

Definition get_slots : Exec slot_bag := read currentIntent_slots.

Definition elicit_slot (session_attributes : attributes) (intent_name : string)
    (slots : slot_bag) (slot_to_elicit : option string) (msg : message_dict)
  : response :=
  {| response_sessionAttributes := session_attributes;
     dialogAction := ElicitSlot intent_name slots slot_to_elicit msg |}.

Definition delegate (session_attributes : attributes) (slots : slot_bag) : response :=
  {| response_sessionAttributes := session_attributes;
     dialogAction := Delegate slots |}.

Definition close (session_attributes : attributes) (fulfillment_state : string)
    (msg : message_dict) : response :=
  {| response_sessionAttributes := session_attributes;
     dialogAction := Close fulfillment_state msg |}.

Definition validate_data (first_name age investment_amount risk_level : option string)
    (intent_request : intent_request) : validation_result :=
  match first_name with
  | Some first_name =>
      if (String.length first_name =? 0)%nat
      then Some (build_validation_result false (Some "firstName")
                   (Some empty_name_text))
      else None
  | None => None
  end or_continue
  match age with
  | Some age =>
      let age := parse_int age in
      if Py.lt age 1
      then Some (build_validation_result false (Some "age")
                   (Some too_young_text))
      else if Py.gt age 64
      then Some (build_validation_result false (Some "age")
                   (Some too_old_text))
      else None
  | None => None
  end or_continue
  match investment_amount with
  | Some investment_amount =>
      let investment_amount := parse_float investment_amount in
      if Py.le (Py.Float investment_amount) 5000
      then Some (build_validation_result false (Some "investmentAmount")
                   (Some (low_amount_text (float_repr investment_amount))))
      else None
  | None => None
  end or_continue
  match risk_level with
  | Some risk_level =>
      if negb (bool_decide (risk_level ∈ valid_levels))
      then Some (build_validation_result false (Some "riskLevel")
                   (Some unknown_risk_text))
      else None
  | None => None
  end or_continue
  build_validation_result true None None.

(** [validation_result["message"]] *)
Definition getitem_message (validation_result : validation_result)
  : Exec message_dict :=
  match message validation_result with
  | Some m => ret m
  | None => raise (KeyError (Some "message"))
  end.

Local Open Scope exec_scope.

(** The local [slots] of the source is the event's own slot dict, not a
    copy: it is read from the event where the source uses it. *)
Definition recommend_portfolio : Exec response :=
  first_name <- (slots <- get_slots ;; getitem slots (Some "firstName")) ;;
  age <- (slots <- get_slots ;; getitem slots (Some "age")) ;;
  investment_amount <-
    (slots <- get_slots ;; getitem slots (Some "investmentAmount")) ;;
  risk_level <- (slots <- get_slots ;; getitem slots (Some "riskLevel")) ;;
  source <- read invocationSource ;;
  if String.eqb source "DialogCodeHook" then
    intent_request <- read id ;;
    let validation_result :=
      validate_data first_name age investment_amount risk_level intent_request in
    if negb (isValid validation_result) then
      setitem_slots (violatedSlot validation_result) None ;;
      session_attributes <- read sessionAttributes ;;
      intent_name <- read currentIntent_name ;;
      slots <- get_slots ;;
      msg <- getitem_message validation_result ;;
      ret (elicit_slot session_attributes intent_name slots
             (violatedSlot validation_result) msg)
    else
      output_session_attributes <- read sessionAttributes ;;
      slots <- get_slots ;;
      ret (delegate output_session_attributes slots)
  else
    initial_recommendation <- getitem risk_rec_map risk_level ;;
    session_attributes <- read sessionAttributes ;;
    ret (close session_attributes "Fulfilled"
           {| contentType := "PlainText";
              content := recommendation_text (Py.str first_name)
                           initial_recommendation |}).

Definition dispatch : Exec response :=
  intent_name <- read currentIntent_name ;;
  if String.eqb intent_name "RecommendPortfolio" then recommend_portfolio
  else raise (Exception ("Intent with name " +:+ intent_name +:+ " not supported")).

(** [lambda_handler(event, context)]: the event is the state the
    computation runs on, the context is not used. *)
Definition lambda_handler {Context : Type} (context : Context) : Exec response :=
  dispatch.

Local Close Scope exec_scope.


(** ** The validation rules as the specification words them (section 4.1)

    Each rule says when a slot is in violation; an absent slot never is. *)

(** firstName: present but zero-length. *)
Definition first_name_violation (first_name : option string) : bool :=
  match first_name with
  | Some s => (String.length s =? 0)%nat
  | None => false
  end.

(** age: parsed as an integer; below 1 or above 64.  A string that does
    not parse is not-a-number, which is neither. *)
Definition age_violation (age : option string) : bool :=
  match age with
  | Some s =>
      match Py.int int_max_str_digits s with
      | Some n => (n <? 1)%Z || (64 <? n)%Z
      | None => false
      end
  | None => false
  end.

(** investmentAmount: parsed as a float; at most 5000. *)
Definition amount_violation (investment_amount : option string) : bool :=
  match investment_amount with
  | Some s =>
      match Py.float s with
      | Some x => SFleb x (Py.float_of_int 5000)
      | None => false
      end
  | None => false
  end.

(** riskLevel: not one of the seven levels. *)
Definition risk_violation (risk_level : option string) : bool :=
  match risk_level with
  | Some s =>
      negb (existsb (String.eqb s)
              ["Maximum"; "Very High"; "High"; "Mid"; "Low"; "Very Low"; "None"]%string)
  | None => false
  end.

(** The rules in the order of the specification: name, age, amount, risk
    level. *)
Definition rules_in_order (first_name age investment_amount risk_level : option string)
  : list (string * bool) :=
  [ ("firstName", first_name_violation first_name);
    ("age", age_violation age);
    ("investmentAmount", amount_violation investment_amount);
    ("riskLevel", risk_violation risk_level) ]%string.

(** First violation wins: the slot of the first rule in violation. *)
Definition first_violation (rules : list (string * bool)) : option string :=
  fst <$> List.find snd rules.

(** The invariant of a validation result (section 3). *)
Definition validation_invariant (r : validation_result) : Prop :=
  (violatedSlot r = None <-> message r = None) /\
  (isValid r = true -> violatedSlot r = None /\ message r = None).

(** [sub] occurs in [s]. *)
Definition contains (s sub : string) : Prop :=
  exists before after : string, s = before +:+ sub +:+ after.

(** The slot bag has the four slots of the intent (section 3). *)
Definition has_slots (slots : slot_bag) (first_name age investment_amount risk_level : option string)
  : Prop :=
  slots !! Some "firstName"%string = Some first_name /\
  slots !! Some "age"%string = Some age /\
  slots !! Some "investmentAmount"%string = Some investment_amount /\
  slots !! Some "riskLevel"%string = Some risk_level.

(** The event after [slots[k] = None]. *)
Definition with_slot_cleared (k : option string) (ev : intent_request) : intent_request :=
  {| currentIntent_name := currentIntent_name ev;
     currentIntent_slots := <[k := None]> (currentIntent_slots ev);
     invocationSource := invocationSource ev;
     sessionAttributes := sessionAttributes ev |}.

(** An event with the four slots and no session attributes. *)
Definition event (source : string) (first_name age investment_amount risk_level : option string)
  : intent_request :=
  {| currentIntent_name := "RecommendPortfolio";
     currentIntent_slots :=
       <[Some "firstName"%string := first_name]>
         (<[Some "age"%string := age]>
            (<[Some "investmentAmount"%string := investment_amount]>
               (<[Some "riskLevel"%string := risk_level]> ∅)));
     invocationSource := source;
     sessionAttributes := None |}.

(** An event whose slot bag has no age key. *)
Definition event_without_age (source : string) : intent_request :=
  {| currentIntent_name := "RecommendPortfolio";
     currentIntent_slots :=
       <[Some "firstName"%string := Some "Jo"%string]>
         (<[Some "investmentAmount"%string := None]>
            (<[Some "riskLevel"%string := Some "High"%string]> ∅));
     invocationSource := source;
     sessionAttributes := None |}.

(** The interpreter of the examples: the default digit cap, and a float
    printer that is right on the one float the examples print, 3000.0. *)
Definition default_max_str_digits : nat := 4300.

Definition print_3000 (x : spec_float) : string := "3000.0".

(** The value of a slot of a bag: [None] when the slot is absent, and also
    when the bag has no such key. *)
Definition slot_value (slots : slot_bag) (k : string) : option string :=
  match slots !! Some k with
  | Some v => v
  | None => None
  end.

(** The number of rules in violation for the slots of a bag. *)
Definition violations (slots : slot_bag) : nat :=
  Nat.b2n (first_name_violation (slot_value slots "firstName")) +
  Nat.b2n (age_violation (slot_value slots "age")) +
  Nat.b2n (amount_violation (slot_value slots "investmentAmount")) +
  Nat.b2n (risk_violation (slot_value slots "riskLevel")).

(** The event as a call of the handler leaves it. *)
Definition after_call (ev : intent_request) : intent_request :=
  snd (recommend_portfolio ev).

(** The keys of the recommendation table. *)
Definition recommendation_keys : list (option string) :=
  [Some "None"; Some "Very Low"; Some "Low"; Some "Mid"; Some "High";
   Some "Very High"]%string.

(** The value of the slot [k] once the slot [slot] is cleared. *)
Definition cleared (slot k : string) (v : option string) : option string :=
  if String.eqb slot k then None else v.

(** ** Not-a-number and the comparisons of the validator *)

Lemma lt_parse_int (s : string) (k : Z) :
  Py.lt (parse_int s) k =
  match Py.int int_max_str_digits s with
  | Some n => (n <? k)%Z
  | None => false
  end.
Proof.
  unfold parse_int. destruct (Py.int int_max_str_digits s); reflexivity.
Qed.

Lemma gt_parse_int (s : string) (k : Z) :
  Py.gt (parse_int s) k =
  match Py.int int_max_str_digits s with
  | Some n => (k <? n)%Z
  | None => false
  end.
Proof.
  unfold parse_int. destruct (Py.int int_max_str_digits s); [reflexivity|].
  unfold Py.gt, Py.nan, SFltb. now destruct (Py.float_of_int k).
Qed.

Lemma le_parse_float (s : string) (k : Z) :
  Py.le (Py.Float (parse_float s)) k =
  match Py.float s with
  | Some x => SFleb x (Py.float_of_int k)
  | None => false
  end.
Proof.
  unfold parse_float. destruct (Py.float s); reflexivity.
Qed.

Lemma valid_levels_spec (s : string) :
  bool_decide (s ∈ valid_levels) =
  existsb (String.eqb s)
    ["Maximum"; "Very High"; "High"; "Mid"; "Low"; "Very Low"; "None"]%string.
Proof.
  apply eq_true_iff_eq. rewrite bool_decide_eq_true, existsb_exists.
  unfold valid_levels. split.
  - intros Hin. exists s. split; [now apply list_elem_of_In | apply String.eqb_refl].
  - intros (x & Hin & Heq). apply String.eqb_eq in Heq. subst x.
    now apply list_elem_of_In.
Qed.

(** ** The validator, rule by rule *)

Ltac open_validator :=
  unfold validate_data, returning, first_name_violation, age_violation,
    amount_violation, risk_violation in *.

Lemma validate_data_first_name first_name age investment_amount risk_level req :
  first_name_violation first_name = true ->
  validate_data first_name age investment_amount risk_level req =
  build_validation_result false (Some "firstName"%string) (Some empty_name_text).
Proof.
  open_validator. intros Hname.
  destruct first_name as [s|]; [|discriminate]. now rewrite Hname.
Qed.

Lemma validate_data_skip_first_name first_name age investment_amount risk_level req :
  first_name_violation first_name = false ->
  validate_data first_name age investment_amount risk_level req =
  validate_data None age investment_amount risk_level req.
Proof.
  open_validator. intros Hname.
  destruct first_name as [s|]; [|reflexivity]. now rewrite Hname.
Qed.

Lemma validate_data_age age investment_amount risk_level req :
  age_violation age = true ->
  exists text,
    (text = too_young_text \/ text = too_old_text) /\
    validate_data None age investment_amount risk_level req =
    build_validation_result false (Some "age"%string) (Some text).
Proof.
  open_validator. intros Hage.
  destruct age as [s|]; [|discriminate].
  cbv zeta. rewrite lt_parse_int, gt_parse_int.
  destruct (Py.int int_max_str_digits s) as [n|]; [|discriminate].
  destruct (n <? 1)%Z.
  - exists too_young_text. split; [now left | reflexivity].
  - simpl in Hage. rewrite Hage.
    exists too_old_text. split; [now right | reflexivity].
Qed.

Lemma validate_data_skip_age age investment_amount risk_level req :
  age_violation age = false ->
  validate_data None age investment_amount risk_level req =
  validate_data None None investment_amount risk_level req.
Proof.
  open_validator. intros Hage.
  destruct age as [s|]; [|reflexivity].
  cbv zeta. rewrite lt_parse_int, gt_parse_int.
  destruct (Py.int int_max_str_digits s) as [n|]; [|reflexivity].
  apply orb_false_iff in Hage as [-> ->]. reflexivity.
Qed.

Lemma validate_data_amount (s : string) risk_level req :
  amount_violation (Some s) = true ->
  validate_data None None (Some s) risk_level req =
  build_validation_result false (Some "investmentAmount"%string)
    (Some (low_amount_text (float_repr (parse_float s)))).
Proof.
  open_validator. intros Hamount.
  cbv zeta. rewrite le_parse_float. now rewrite Hamount.
Qed.

Lemma validate_data_skip_amount investment_amount risk_level req :
  amount_violation investment_amount = false ->
  validate_data None None investment_amount risk_level req =
  validate_data None None None risk_level req.
Proof.
  open_validator. intros Hamount.
  destruct investment_amount as [s|]; [|reflexivity].
  cbv zeta. rewrite le_parse_float. now rewrite Hamount.
Qed.

Lemma validate_data_risk risk_level req :
  risk_violation risk_level = true ->
  validate_data None None None risk_level req =
  build_validation_result false (Some "riskLevel"%string) (Some unknown_risk_text).
Proof.
  open_validator. intros Hrisk.
  destruct risk_level as [s|]; [|discriminate].
  rewrite valid_levels_spec. now rewrite Hrisk.
Qed.

Lemma validate_data_skip_risk risk_level req :
  risk_violation risk_level = false ->
  validate_data None None None risk_level req =
  build_validation_result true None None.
Proof.
  open_validator. intros Hrisk.
  destruct risk_level as [s|]; [|reflexivity].
  rewrite valid_levels_spec. now rewrite Hrisk.
Qed.

(** With no rule in violation the result is the valid one. *)
Lemma validate_data_valid first_name age investment_amount risk_level req :
  first_name_violation first_name = false ->
  age_violation age = false ->
  amount_violation investment_amount = false ->
  risk_violation risk_level = false ->
  validate_data first_name age investment_amount risk_level req =
  build_validation_result true None None.
Proof.
  intros Hn Ha Hm Hr.
  rewrite validate_data_skip_first_name, validate_data_skip_age,
    validate_data_skip_amount by assumption.
  now apply validate_data_skip_risk.
Qed.

(** Every result is built by [build_validation_result] in one of two
    shapes: invalid with a slot and a text, or valid with neither. *)
Lemma validate_data_shape first_name age investment_amount risk_level req :
  let r := validate_data first_name age investment_amount risk_level req in
  (exists slot text,
      first_violation
        (rules_in_order first_name age investment_amount risk_level) = Some slot /\
      r = build_validation_result false (Some slot) (Some text)) \/
  (first_violation
     (rules_in_order first_name age investment_amount risk_level) = None /\
   r = build_validation_result true None None).
Proof.
  intros r. subst r. unfold first_violation, rules_in_order. simpl.
  destruct (first_name_violation first_name) eqn:Hn.
  { left. eexists _, _. split; [reflexivity|].
    now apply validate_data_first_name. }
  rewrite validate_data_skip_first_name by assumption.
  destruct (age_violation age) eqn:Ha.
  { left. destruct (validate_data_age age investment_amount risk_level req Ha)
      as (text & _ & ->). now eexists _, _. }
  rewrite validate_data_skip_age by assumption.
  destruct (amount_violation investment_amount) eqn:Hm.
  { left. destruct investment_amount as [s|]; [|discriminate].
    rewrite validate_data_amount by assumption. now eexists _, _. }
  rewrite validate_data_skip_amount by assumption.
  destruct (risk_violation risk_level) eqn:Hr.
  { left. rewrite validate_data_risk by assumption. now eexists _, _. }
  right. split; [reflexivity|]. now apply validate_data_skip_risk.
Qed.

(** Literals of at most 640 digits convert whatever the digit cap is. *)
Lemma over_digit_limit_short (ds : list ascii) :
  (length ds <= 640)%nat -> Py.over_digit_limit int_max_str_digits ds = false.
Proof.
  intros Hlen. unfold Py.over_digit_limit.
  destruct (Z.ltb_spec 640 (Z.of_nat (length ds))) as [Hlt|_]; [lia|].
  now rewrite andb_false_r.
Qed.

Ltac int_of_literal s :=
  unfold Py.int;
  let v := eval vm_compute in (Py.int_literal s) in
  change (Py.int_literal s) with v;
  cbv beta iota;
  try (rewrite over_digit_limit_short by (simpl; lia));
  try reflexivity.

Lemma int_200 : Py.int int_max_str_digits "200" = Some 200%Z.
Proof. int_of_literal "200"%string. Qed.

(** What [int] takes and what it rejects. *)
Example int_examples :
  Py.int int_max_str_digits " 30 " = Some 30%Z /\
  Py.int int_max_str_digits "-1_000" = Some (-1000)%Z /\
  Py.int int_max_str_digits "abc" = None /\
  Py.int int_max_str_digits "30.5" = None /\
  Py.int int_max_str_digits "1__0" = None /\
  Py.int int_max_str_digits EmptyString = None.
Proof.
  repeat apply conj.
  - int_of_literal " 30 "%string.
  - int_of_literal "-1_000"%string.
  - int_of_literal "abc"%string.
  - int_of_literal "30.5"%string.
  - int_of_literal "1__0"%string.
  - int_of_literal EmptyString.
Qed.

(** What [float] takes and what it rejects. *)
Example float_examples :
  Py.float "3000" = Some (Py.float_of_int 3000) /\
  Py.float " 5e3 " = Some (Py.float_of_int 5000) /\
  Py.float "30.5" = Some (S754_finite false (61 * 2 ^ 47) (-48)) /\
  Py.float "-Infinity" = Some (S754_infinity true) /\
  Py.float "NaN" = Some Py.nan /\
  Py.float "abc" = None /\
  Py.float "1e" = None.
Proof. repeat apply conj; vm_compute; reflexivity. Qed.

(** The amount rule at its bound: 5000 is too low, the next float is not. *)
Example amount_violation_examples :
  amount_violation (Some "5000"%string) = true /\
  amount_violation (Some "5000.000000000001"%string) = false /\
  amount_violation (Some "abc"%string) = false.
Proof. repeat apply conj; vm_compute; reflexivity. Qed.

(** ** The properties of the validator *)

(** C3: [validate_data] reports the first rule in violation, in the order
    firstName, age, investmentAmount, riskLevel, and only that one: its
    violated slot is the slot of the first rule in violation, and it is valid
    exactly when no rule is in violation.  With firstName the empty string
    and age 200 the violated slot is firstName, although the age by itself
    is a violation of the age rule. *)
Theorem validate_data_first_violation_wins
    (first_name age investment_amount risk_level : option string) (req : intent_request) :
  let r := validate_data first_name age investment_amount risk_level req in
  violatedSlot r =
    first_violation (rules_in_order first_name age investment_amount risk_level) /\
  (isValid r = true <->
   first_violation (rules_in_order first_name age investment_amount risk_level) = None) /\
  violatedSlot
    (validate_data (Some EmptyString) (Some "200"%string) investment_amount risk_level req)
  = Some "firstName"%string /\
  violatedSlot
    (validate_data None (Some "200"%string) investment_amount risk_level req)
  = Some "age"%string.
Proof.
  intros r. subst r.
  assert (Hage : age_violation (Some "200"%string) = true).
  { unfold age_violation. now rewrite int_200. }
  destruct (validate_data_age _ investment_amount risk_level req Hage)
    as (text200 & _ & E200).
  rewrite E200.
  rewrite (validate_data_first_name (Some EmptyString)) by reflexivity.
  destruct (validate_data_shape first_name age investment_amount risk_level req)
    as [(slot & text & -> & ->) | [-> ->]]; simpl; intuition discriminate.
Qed.

(** C4: every result of [validate_data] has its violated slot and its
    message both present or both absent, and both absent when it is valid. *)
Theorem validate_data_invariant
    (first_name age investment_amount risk_level : option string) (req : intent_request) :
  validation_invariant
    (validate_data first_name age investment_amount risk_level req).
Proof.
  unfold validation_invariant.
  destruct (validate_data_shape first_name age investment_amount risk_level req)
    as [(slot & text & _ & ->) | [_ ->]]; simpl; intuition discriminate.
Qed.

(** C8: for an age string that parses as the integer [n], the other slots
    being absent or valid, the result is valid exactly when [1 <= n <= 64];
    when [n < 1] or [n > 64] it is invalid with violated slot age. *)
Theorem validate_data_age_bounds
    (first_name investment_amount risk_level : option string) (s : string) (n : Z)
    (req : intent_request) :
  Py.int int_max_str_digits s = Some n ->
  first_name_violation first_name = false ->
  amount_violation investment_amount = false ->
  risk_violation risk_level = false ->
  let r := validate_data first_name (Some s) investment_amount risk_level req in
  (isValid r = true <-> (1 <= n <= 64)%Z) /\
  ((n < 1 \/ 64 < n)%Z -> isValid r = false /\ violatedSlot r = Some "age"%string).
Proof.
  intros Hint Hn Hm Hr r. subst r.
  rewrite validate_data_skip_first_name by assumption.
  destruct (age_violation (Some s)) eqn:Ha.
  - destruct (validate_data_age _ investment_amount risk_level req Ha)
      as (text & _ & ->).
    unfold age_violation in Ha. rewrite Hint in Ha.
    apply orb_true_iff in Ha. rewrite !Z.ltb_lt in Ha.
    simpl. split; [split; [discriminate | lia] | easy].
  - rewrite validate_data_skip_age, validate_data_skip_amount by assumption.
    rewrite validate_data_skip_risk by assumption.
    unfold age_violation in Ha. rewrite Hint in Ha.
    apply orb_false_iff in Ha. rewrite !Z.ltb_ge in Ha.
    simpl. split; [split; [lia | reflexivity] | lia].
Qed.

(** C9: for a present risk level, the other slots being absent or valid,
    the result is valid exactly when the string is one of Maximum, Very High,
    High, Mid, Low, Very Low, None; otherwise it is invalid with violated
    slot riskLevel. *)
Theorem validate_data_risk_levels
    (first_name age investment_amount : option string) (s : string)
    (req : intent_request) :
  first_name_violation first_name = false ->
  age_violation age = false ->
  amount_violation investment_amount = false ->
  let r := validate_data first_name age investment_amount (Some s) req in
  let one_of_seven :=
    (s = "Maximum" \/ s = "Very High" \/ s = "High" \/ s = "Mid" \/
     s = "Low" \/ s = "Very Low" \/ s = "None")%string in
  (isValid r = true <-> one_of_seven) /\
  (~ one_of_seven -> isValid r = false /\ violatedSlot r = Some "riskLevel"%string).
Proof.
  intros Hn Ha Hm r one_of_seven. subst r.
  rewrite validate_data_skip_first_name, validate_data_skip_age,
    validate_data_skip_amount by assumption.
  assert (Hseven : risk_violation (Some s) = false <-> one_of_seven).
  { unfold risk_violation, one_of_seven. rewrite negb_false_iff. simpl.
    rewrite !orb_true_iff, !String.eqb_eq. intuition discriminate. }
  destruct (risk_violation (Some s)) eqn:Hr.
  - rewrite validate_data_risk by assumption. simpl.
    split; [split; [discriminate | intros H; now apply Hseven in H] | easy].
  - rewrite validate_data_skip_risk by assumption. simpl.
    split; [split; [intros _; now apply Hseven | reflexivity] |].
    intros Hnot. exfalso. apply Hnot. now apply Hseven.
Qed.

(** C2: a present age string that [int] rejects, or a present
    investmentAmount string that [float] rejects, becomes not-a-number, which
    is neither below 1, nor above 64, nor at most 5000; with the other slots
    absent or valid the result of [validate_data] is the valid one. *)
Theorem validate_data_accepts_unparsable
    (first_name age investment_amount risk_level : option string) (s : string)
    (req : intent_request) :
  first_name_violation first_name = false ->
  risk_violation risk_level = false ->
  (age = Some s /\ Py.int int_max_str_digits s = None /\
   amount_violation investment_amount = false) \/
  (investment_amount = Some s /\ Py.float s = None /\
   age_violation age = false) ->
  (Py.int int_max_str_digits s = None -> parse_int s = Py.Float Py.nan) /\
  (Py.float s = None -> parse_float s = Py.nan) /\
  Py.lt (Py.Float Py.nan) 1 = false /\
  Py.gt (Py.Float Py.nan) 64 = false /\
  Py.le (Py.Float Py.nan) 5000 = false /\
  validate_data first_name age investment_amount risk_level req =
  {| isValid := true; violatedSlot := None; message := None |}.
Proof.
  intros Hn Hr Hs.
  split; [unfold parse_int; now intros -> |].
  split; [unfold parse_float; now intros -> |].
  do 3 (split; [reflexivity |]).
  apply validate_data_valid; try assumption.
  - destruct Hs as [(-> & Hint & _) | (_ & _ & Ha)]; [|assumption].
    unfold age_violation. now rewrite Hint.
  - destruct Hs as [(_ & _ & Hm) | (-> & Hfloat & _)]; [assumption|].
    unfold amount_violation. now rewrite Hfloat.
Qed.

(** ** Running the handler *)

Ltac in_list := apply list_elem_of_In; simpl; tauto.

Ltac run_exec :=
  unfold recommend_portfolio, bind, get_slots, read, getitem, getitem_message,
    setitem_slots, ret, raise.

(** The four reads of the slot bag: the first key that is missing raises. *)
Lemma recommend_portfolio_missing_key (ev : intent_request) :
  let slots := currentIntent_slots ev in
  let missing (k : string) := slots !! Some k = None in
  (missing "firstName" \/
   missing "age" \/ missing "investmentAmount" \/ missing "riskLevel")%string ->
  exists k : string,
    k ∈ ["firstName"; "age"; "investmentAmount"; "riskLevel"]%string /\
    missing k /\
    recommend_portfolio ev = (Raises (KeyError (Some k)), ev).
Proof.
  intros slots missing Hmissing. subst slots missing. cbv beta in *. run_exec.
  destruct (currentIntent_slots ev !! Some "firstName"%string) eqn:E1;
    [| exists "firstName"%string; repeat split; [in_list | assumption] ].
  destruct (currentIntent_slots ev !! Some "age"%string) eqn:E2;
    [| exists "age"%string; repeat split; [in_list | assumption] ].
  destruct (currentIntent_slots ev !! Some "investmentAmount"%string) eqn:E3;
    [| exists "investmentAmount"%string; repeat split; [in_list | assumption] ].
  destruct (currentIntent_slots ev !! Some "riskLevel"%string) eqn:E4;
    [| exists "riskLevel"%string; repeat split; [in_list | assumption] ].
  exfalso. intuition discriminate.
Qed.

(** The dialog phase, once the four slots are read. *)
Lemma recommend_portfolio_dialog (ev : intent_request)
    (first_name age investment_amount risk_level : option string) :
  has_slots (currentIntent_slots ev) first_name age investment_amount risk_level ->
  invocationSource ev = "DialogCodeHook"%string ->
  recommend_portfolio ev =
  let validation_result :=
    validate_data first_name age investment_amount risk_level ev in
  if isValid validation_result
  then (Returns (delegate (sessionAttributes ev) (currentIntent_slots ev)), ev)
  else
    let ev' := with_slot_cleared (violatedSlot validation_result) ev in
    match message validation_result with
    | Some msg =>
        (Returns (elicit_slot (sessionAttributes ev) (currentIntent_name ev)
                    (currentIntent_slots ev') (violatedSlot validation_result) msg),
         ev')
    | None => (Raises (KeyError (Some "message"%string)), ev')
    end.
Proof.
  intros (H1 & H2 & H3 & H4) Hsource. run_exec.
  rewrite H1, H2, H3, H4, Hsource. cbv zeta.
  change (String.eqb "DialogCodeHook" "DialogCodeHook") with true. cbv iota.
  unfold id.
  destruct (isValid (validate_data first_name age investment_amount risk_level ev));
    [reflexivity|].
  cbn [negb]. unfold with_slot_cleared. cbn [currentIntent_slots sessionAttributes
    currentIntent_name].
  now destruct (message (validate_data first_name age investment_amount risk_level ev)).
Qed.

(** The fulfillment phase, once the four slots are read. *)
Lemma recommend_portfolio_fulfillment (ev : intent_request)
    (first_name age investment_amount risk_level : option string) :
  has_slots (currentIntent_slots ev) first_name age investment_amount risk_level ->
  invocationSource ev <> "DialogCodeHook"%string ->
  recommend_portfolio ev =
  match risk_rec_map !! risk_level with
  | Some initial_recommendation =>
      (Returns
         (close (sessionAttributes ev) "Fulfilled"
            {| contentType := "PlainText";
               content := recommendation_text (Py.str first_name)
                            initial_recommendation |}),
       ev)
  | None => (Raises (KeyError risk_level), ev)
  end.
Proof.
  intros (H1 & H2 & H3 & H4) Hsource. run_exec.
  rewrite H1, H2, H3, H4.
  apply String.eqb_neq in Hsource. rewrite Hsource.
  now destruct (risk_rec_map !! risk_level).
Qed.

Lemma lambda_handler_recommend {Context : Type} (context : Context)
    (ev : intent_request) :
  currentIntent_name ev = "RecommendPortfolio"%string ->
  lambda_handler context ev = recommend_portfolio ev.
Proof.
  intros Hname. unfold lambda_handler, dispatch, bind, read. now rewrite Hname.
Qed.

Lemma append_assoc (a b c : string) : (a +:+ b) +:+ c = a +:+ (b +:+ c).
Proof.
  induction a as [|x a IH]; [reflexivity|].
  change (String x ((a +:+ b) +:+ c) = String x (a +:+ (b +:+ c))).
  now rewrite IH.
Qed.

Lemma first_violation_slot first_name age investment_amount risk_level slot :
  first_violation (rules_in_order first_name age investment_amount risk_level)
  = Some slot ->
  slot ∈ ["firstName"; "age"; "investmentAmount"; "riskLevel"]%string.
Proof.
  unfold first_violation, rules_in_order. simpl.
  destruct (first_name_violation first_name), (age_violation age),
    (amount_violation investment_amount), (risk_violation risk_level);
    simpl; intros Heq; inversion Heq; in_list.
Qed.

(** ** The properties of the handler *)

(** C5: in the dialog phase, when the slots fail validation, the handler
    returns an ElicitSlot response for the violated slot with the violation
    message; the slot bag it returns is the one of the request with the
    violated slot set to [None] and every other slot as it was, and the
    session attributes are those of the request. *)
Theorem recommend_portfolio_elicits_violated_slot (ev : intent_request)
    (first_name age investment_amount risk_level : option string) :
  invocationSource ev = "DialogCodeHook"%string ->
  has_slots (currentIntent_slots ev) first_name age investment_amount risk_level ->
  isValid (validate_data first_name age investment_amount risk_level ev) = false ->
  exists (slot : string) (msg : message_dict),
    let validation_result :=
      validate_data first_name age investment_amount risk_level ev in
    let slots' := <[Some slot := None]> (currentIntent_slots ev) in
    violatedSlot validation_result = Some slot /\
    message validation_result = Some msg /\
    slot ∈ ["firstName"; "age"; "investmentAmount"; "riskLevel"]%string /\
    recommend_portfolio ev =
      (Returns {| response_sessionAttributes := sessionAttributes ev;
                  dialogAction :=
                    ElicitSlot (currentIntent_name ev) slots' (Some slot) msg |},
       with_slot_cleared (Some slot) ev) /\
    slots' !! Some slot = Some None /\
    (forall k, k <> Some slot -> slots' !! k = currentIntent_slots ev !! k).
Proof.
  intros Hsource Hslots Hinvalid.
  rewrite (recommend_portfolio_dialog ev _ _ _ _ Hslots Hsource). cbv zeta.
  destruct (validate_data_shape first_name age investment_amount risk_level ev)
    as [(slot & text & Hfirst & Hr) | [_ Hr]]; rewrite Hr in *; [|discriminate].
  exists slot, {| contentType := "PlainText"; content := text |}.
  repeat apply conj; try reflexivity.
  - now apply first_violation_slot in Hfirst.
  - apply lookup_insert_eq.
  - intros k Hk. now apply lookup_insert_ne.
Qed.

(** C7: in the dialog phase, when the slots pass validation, the handler
    returns a Delegate response with the slot bag and the session attributes
    of the request, and leaves the request as it was. *)
Theorem recommend_portfolio_delegates (ev : intent_request)
    (first_name age investment_amount risk_level : option string) :
  invocationSource ev = "DialogCodeHook"%string ->
  has_slots (currentIntent_slots ev) first_name age investment_amount risk_level ->
  isValid (validate_data first_name age investment_amount risk_level ev) = true ->
  recommend_portfolio ev =
    (Returns {| response_sessionAttributes := sessionAttributes ev;
                dialogAction := Delegate (currentIntent_slots ev) |},
     ev).
Proof.
  intros Hsource Hslots Hvalid.
  rewrite (recommend_portfolio_dialog ev _ _ _ _ Hslots Hsource). cbv zeta.
  now rewrite Hvalid.
Qed.

(** C6: in the fulfillment phase, when the risk level is a key of the
    recommendation table, the handler returns a Close response with
    fulfillment state Fulfilled and a PlainText message whose content has the
    first name of the request and the recommendation of the table in it;
    the slots are not validated: whatever they hold, the response is this one. *)
Theorem recommend_portfolio_closes (ev : intent_request)
    (first_name age investment_amount : option string)
    (risk_level initial_recommendation : string) :
  invocationSource ev = "FulfillmentCodeHook"%string ->
  has_slots (currentIntent_slots ev) first_name age investment_amount
    (Some risk_level) ->
  risk_rec_map !! Some risk_level = Some initial_recommendation ->
  let text := recommendation_text (Py.str first_name) initial_recommendation in
  recommend_portfolio ev =
    (Returns {| response_sessionAttributes := sessionAttributes ev;
                dialogAction :=
                  Close "Fulfilled"
                    {| contentType := "PlainText"; content := text |} |},
     ev) /\
  contains text initial_recommendation /\
  (forall name, first_name = Some name -> contains text name).
Proof.
  intros Hsource Hslots Hrec text. subst text.
  rewrite (recommend_portfolio_fulfillment ev _ _ _ _ Hslots)
    by (rewrite Hsource; discriminate).
  rewrite Hrec. split; [reflexivity|]. unfold contains, recommendation_text. split.
  - exists (Py.str first_name +:+ " thank you for your information;" +:+
            line 12 "based on the risk level you defined, my recommendation is to choose an investment portfolio with "),
           (line 12 EmptyString).
    now rewrite !append_assoc.
  - intros name ->. exists EmptyString. eexists. reflexivity.
Qed.

(** C1: Maximum is one of the levels the validator accepts and is not a
    key of the recommendation table; in the fulfillment phase a request
    whose risk level is Maximum makes the handler raise a KeyError, which
    [lambda_handler] does not catch; when the slot bag has its four slots
    the key of the error is Maximum. *)
Theorem recommend_portfolio_maximum_raises (ev : intent_request) :
  invocationSource ev = "FulfillmentCodeHook"%string ->
  currentIntent_slots ev !! Some "riskLevel"%string = Some (Some "Maximum"%string) ->
  "Maximum"%string ∈ valid_levels /\
  isValid (validate_data None None None (Some "Maximum"%string) ev) = true /\
  risk_rec_map !! Some "Maximum"%string = None /\
  exists key,
    recommend_portfolio ev = (Raises (KeyError key), ev) /\
    (currentIntent_name ev = "RecommendPortfolio"%string ->
     lambda_handler tt ev = (Raises (KeyError key), ev)) /\
    (forall first_name age investment_amount,
        has_slots (currentIntent_slots ev) first_name age investment_amount
          (Some "Maximum"%string) ->
        key = Some "Maximum"%string).
Proof.
  intros Hsource Hrisk.
  split; [unfold valid_levels; in_list|].
  split; [now rewrite validate_data_skip_risk|].
  assert (Hmax : risk_rec_map !! Some "Maximum"%string = None) by (now vm_compute).
  split; [exact Hmax|].
  assert (Hcatch : forall key,
    recommend_portfolio ev = (Raises (KeyError key), ev) ->
    currentIntent_name ev = "RecommendPortfolio"%string ->
    lambda_handler tt ev = (Raises (KeyError key), ev)).
  { intros key Hkey Hname. now rewrite lambda_handler_recommend. }
  destruct (currentIntent_slots ev !! Some "firstName"%string) as [v1|] eqn:E1;
  [destruct (currentIntent_slots ev !! Some "age"%string) as [v2|] eqn:E2;
   [destruct (currentIntent_slots ev !! Some "investmentAmount"%string)
      as [v3|] eqn:E3 | ] | ].
  - exists (Some "Maximum"%string).
    assert (Hslots : has_slots (currentIntent_slots ev) v1 v2 v3 (Some "Maximum"%string))
      by easy.
    assert (Hrun : recommend_portfolio ev =
                   (Raises (KeyError (Some "Maximum"%string)), ev)).
    { rewrite (recommend_portfolio_fulfillment ev _ _ _ _ Hslots)
        by (rewrite Hsource; discriminate).
      now rewrite Hmax. }
    auto.
  - destruct (recommend_portfolio_missing_key ev) as (k & _ & Hk & Hrun); [auto|].
    exists (Some k). repeat apply conj; auto.
    intros ? ? ? (_ & _ & H3 & _). congruence.
  - destruct (recommend_portfolio_missing_key ev) as (k & _ & Hk & Hrun); [auto|].
    exists (Some k). repeat apply conj; auto.
    intros ? ? ? (_ & H2 & _). congruence.
  - destruct (recommend_portfolio_missing_key ev) as (k & _ & Hk & Hrun); [auto|].
    exists (Some k). repeat apply conj; auto.
    intros ? ? ? (H1 & _). congruence.
Qed.

(** C10: the handler reads the four keys firstName, age, investmentAmount
    and riskLevel of the slot bag before anything else; when one of them is
    missing from the bag it raises a KeyError for a missing key and nothing
    is validated, returned or changed, whatever the invocation source, and
    so does [lambda_handler] for the intent RecommendPortfolio. *)
Theorem recommend_portfolio_needs_slot_keys (ev : intent_request) (k : string) :
  k ∈ ["firstName"; "age"; "investmentAmount"; "riskLevel"]%string ->
  currentIntent_slots ev !! Some k = None ->
  exists k' : string,
    k' ∈ ["firstName"; "age"; "investmentAmount"; "riskLevel"]%string /\
    currentIntent_slots ev !! Some k' = None /\
    recommend_portfolio ev = (Raises (KeyError (Some k')), ev) /\
    (currentIntent_name ev = "RecommendPortfolio"%string ->
     lambda_handler tt ev = (Raises (KeyError (Some k')), ev)).
Proof.
  intros Hk Hmissing.
  destruct (recommend_portfolio_missing_key ev) as (k' & Hin & Hk' & Hrun).
  { apply list_elem_of_In in Hk. simpl in Hk.
    destruct Hk as [<- | [<- | [<- | [<- | []]]]]; auto. }
  exists k'. repeat apply conj; auto.
  intros Hname. now rewrite lambda_handler_recommend.
Qed.

(** ** More on the validator *)

Lemma first_name_violation_empty (first_name : option string) :
  first_name_violation first_name = true <-> first_name = Some EmptyString.
Proof.
  unfold first_name_violation. destruct first_name as [[|c s]|]; simpl;
    split; intros H; try discriminate; reflexivity.
Qed.

(** With no violation reported, no rule is in violation. *)
Lemma first_violation_none first_name age investment_amount risk_level :
  first_violation (rules_in_order first_name age investment_amount risk_level)
  = None <->
  first_name_violation first_name = false /\
  age_violation age = false /\
  amount_violation investment_amount = false /\
  risk_violation risk_level = false.
Proof.
  unfold first_violation, rules_in_order. simpl.
  destruct (first_name_violation first_name), (age_violation age),
    (amount_violation investment_amount), (risk_violation risk_level);
    simpl; intuition discriminate.
Qed.

Lemma float_5000 :
  Py.float_of_int 5000 = S754_finite false 5497558138880000 (-40).
Proof. vm_compute. reflexivity. Qed.

(** X1: the violated slot is firstName exactly when the first name is
    present and empty, whatever the other slots hold; the result then
    carries the empty-name message. *)
Theorem validate_data_first_name_rule
    (first_name age investment_amount risk_level : option string) (req : intent_request) :
  let r := validate_data first_name age investment_amount risk_level req in
  (violatedSlot r = Some "firstName"%string <-> first_name = Some EmptyString) /\
  (violatedSlot r = Some "firstName"%string ->
   r = {| isValid := false;
          violatedSlot := Some "firstName"%string;
          message := Some {| contentType := "PlainText";
                             content := empty_name_text |} |}).
Proof.
  intros r. subst r.
  rewrite <- first_name_violation_empty.
  destruct (first_name_violation first_name) eqn:Hn.
  - rewrite validate_data_first_name by assumption. simpl. intuition.
  - destruct (validate_data_shape first_name age investment_amount risk_level req)
      as [(slot & text & Hfirst & ->) | [_ ->]]; simpl;
      [|intuition discriminate].
    assert (Hslot : slot <> "firstName"%string).
    { unfold first_violation, rules_in_order in Hfirst. simpl in Hfirst.
      rewrite Hn in Hfirst.
      destruct (age_violation age), (amount_violation investment_amount),
        (risk_violation risk_level); simpl in Hfirst; inversion Hfirst;
        discriminate. }
    split; [split; [|discriminate] |]; intros H; inversion H; contradiction.
Qed.

(** X2: an age that converts to an integer below 1 gets the
    at-least-1-year message and one above 64 the less-than-65 message, with
    violated slot age, whatever the amount and the risk level are. *)
Theorem validate_data_age_messages
    (first_name investment_amount risk_level : option string) (s : string) (n : Z)
    (req : intent_request) :
  Py.int int_max_str_digits s = Some n ->
  first_name_violation first_name = false ->
  let r := validate_data first_name (Some s) investment_amount risk_level req in
  let invalid_age text :=
    {| isValid := false;
       violatedSlot := Some "age"%string;
       message := Some {| contentType := "PlainText"; content := text |} |} in
  ((n < 1)%Z -> r = invalid_age too_young_text) /\
  ((64 < n)%Z -> r = invalid_age too_old_text).
Proof.
  intros Hint Hn r invalid_age. subst r invalid_age.
  rewrite validate_data_skip_first_name by assumption.
  unfold validate_data, returning. cbv zeta.
  rewrite lt_parse_int, gt_parse_int, Hint.
  split; intros Hlt.
  - apply Z.ltb_lt in Hlt. now rewrite Hlt.
  - destruct (Z.ltb_spec n 1) as [Hlow|_]; [lia|].
    apply Z.ltb_lt in Hlt. now rewrite Hlt.
Qed.

(** X3: an amount that converts to the float [x], the name and the age
    being absent or valid: when [x <= 5000] the result is invalid with
    violated slot investmentAmount and a message that embeds the text of [x],
    whatever the risk level is; otherwise the amount counts as an absent
    slot. *)
Theorem validate_data_amount_bound
    (first_name age risk_level : option string) (s : string) (x : spec_float)
    (req : intent_request) :
  Py.float s = Some x ->
  first_name_violation first_name = false ->
  age_violation age = false ->
  let r := validate_data first_name age (Some s) risk_level req in
  (SFleb x (Py.float_of_int 5000) = true ->
   r = {| isValid := false;
          violatedSlot := Some "investmentAmount"%string;
          message := Some {| contentType := "PlainText";
                             content := low_amount_text (float_repr x) |} |}) /\
  (SFleb x (Py.float_of_int 5000) = false ->
   r = validate_data first_name age None risk_level req /\
   violatedSlot r <> Some "investmentAmount"%string).
Proof.
  intros Hfloat Hn Ha r. subst r.
  rewrite !(validate_data_skip_first_name first_name) by assumption.
  rewrite !(validate_data_skip_age age) by assumption.
  assert (Hrule : amount_violation (Some s) = SFleb x (Py.float_of_int 5000)).
  { unfold amount_violation. now rewrite Hfloat. }
  split; intros Hle; rewrite <- Hrule in Hle.
  - rewrite validate_data_amount by assumption.
    unfold parse_float. now rewrite Hfloat.
  - rewrite validate_data_skip_amount by assumption. split; [reflexivity|].
    destruct (risk_violation risk_level) eqn:Hr.
    + now rewrite validate_data_risk.
    + now rewrite validate_data_skip_risk.
Qed.

(** X4: an amount that converts to not-a-number or to plus infinity passes
    the amount rule (with the other slots absent or valid the result is
    valid); one that converts to a zero, a negative number or minus infinity
    is rejected with violated slot investmentAmount. *)
Theorem validate_data_amount_special
    (first_name age risk_level : option string) (s : string) (x : spec_float)
    (req : intent_request) :
  Py.float s = Some x ->
  first_name_violation first_name = false ->
  age_violation age = false ->
  risk_violation risk_level = false ->
  let r := validate_data first_name age (Some s) risk_level req in
  match x with
  | S754_nan | S754_infinity false => isValid r = true
  | S754_zero _ | S754_infinity true | S754_finite true _ _ =>
      isValid r = false /\ violatedSlot r = Some "investmentAmount"%string
  | S754_finite false _ _ => True
  end.
Proof.
  intros Hfloat Hn Ha Hr r. subst r.
  rewrite validate_data_skip_first_name, validate_data_skip_age by assumption.
  assert (Hrule : amount_violation (Some s) = SFleb x (Py.float_of_int 5000)).
  { unfold amount_violation. now rewrite Hfloat. }
  rewrite float_5000 in Hrule.
  destruct x as [sz | [|] | | [|] m e]; try exact I;
    first
      [ rewrite validate_data_amount by (rewrite Hrule; reflexivity);
        split; reflexivity
      | rewrite validate_data_skip_amount by (rewrite Hrule; reflexivity);
        rewrite validate_data_skip_risk by assumption; reflexivity ].
Qed.

(** ** More on the handler *)

Lemma has_slots_values (slots : slot_bag)
    (first_name age investment_amount risk_level : option string) :
  has_slots slots first_name age investment_amount risk_level ->
  slot_value slots "firstName" = first_name /\
  slot_value slots "age" = age /\
  slot_value slots "investmentAmount" = investment_amount /\
  slot_value slots "riskLevel" = risk_level.
Proof.
  intros (H1 & H2 & H3 & H4). unfold slot_value.
  now rewrite H1, H2, H3, H4.
Qed.

Lemma lookup_cleared (slots : slot_bag) (slot k : string) (v : option string) :
  slots !! Some k = Some v ->
  <[Some slot := None]> slots !! Some k = Some (cleared slot k v).
Proof.
  intros Hk. unfold cleared. destruct (String.eqb_spec slot k) as [-> | Hne].
  - apply lookup_insert_eq.
  - rewrite lookup_insert_ne by congruence. exact Hk.
Qed.

Lemma has_slots_cleared (slots : slot_bag) (slot : string)
    (first_name age investment_amount risk_level : option string) :
  has_slots slots first_name age investment_amount risk_level ->
  has_slots (<[Some slot := None]> slots)
    (cleared slot "firstName" first_name) (cleared slot "age" age)
    (cleared slot "investmentAmount" investment_amount)
    (cleared slot "riskLevel" risk_level).
Proof.
  intros (H1 & H2 & H3 & H4). unfold has_slots.
  now rewrite (lookup_cleared _ _ _ _ H1), (lookup_cleared _ _ _ _ H2),
    (lookup_cleared _ _ _ _ H3), (lookup_cleared _ _ _ _ H4).
Qed.

(** A bag has the four keys, or one of them is missing. *)
Lemma slots_complete_or_missing (slots : slot_bag) :
  (exists first_name age investment_amount risk_level,
      has_slots slots first_name age investment_amount risk_level) \/
  (slots !! Some "firstName" = None \/ slots !! Some "age" = None \/
   slots !! Some "investmentAmount" = None \/
   slots !! Some "riskLevel" = None)%string.
Proof.
  unfold has_slots.
  destruct (slots !! Some "firstName"%string) as [v1|]; [|tauto].
  destruct (slots !! Some "age"%string) as [v2|]; [|tauto].
  destruct (slots !! Some "investmentAmount"%string) as [v3|]; [|tauto].
  destruct (slots !! Some "riskLevel"%string) as [v4|]; [|tauto].
  left. now exists v1, v2, v3, v4.
Qed.

Lemma recommend_portfolio_delegate_eq (ev : intent_request)
    (first_name age investment_amount risk_level : option string) :
  has_slots (currentIntent_slots ev) first_name age investment_amount risk_level ->
  invocationSource ev = "DialogCodeHook"%string ->
  first_violation (rules_in_order first_name age investment_amount risk_level)
  = None ->
  recommend_portfolio ev =
    (Returns (delegate (sessionAttributes ev) (currentIntent_slots ev)), ev).
Proof.
  intros Hslots Hsource Hnone.
  rewrite (recommend_portfolio_dialog ev _ _ _ _ Hslots Hsource). cbv zeta.
  destruct (validate_data_shape first_name age investment_amount risk_level ev)
    as [(slot & text & Hfirst & _) | [_ ->]]; [congruence | reflexivity].
Qed.

Lemma recommend_portfolio_elicit_eq (ev : intent_request)
    (first_name age investment_amount risk_level : option string) (slot : string) :
  has_slots (currentIntent_slots ev) first_name age investment_amount risk_level ->
  invocationSource ev = "DialogCodeHook"%string ->
  first_violation (rules_in_order first_name age investment_amount risk_level)
  = Some slot ->
  exists text,
    recommend_portfolio ev =
      (Returns
         (elicit_slot (sessionAttributes ev) (currentIntent_name ev)
            (<[Some slot := None]> (currentIntent_slots ev)) (Some slot)
            {| contentType := "PlainText"; content := text |}),
       with_slot_cleared (Some slot) ev).
Proof.
  intros Hslots Hsource Hsome.
  rewrite (recommend_portfolio_dialog ev _ _ _ _ Hslots Hsource). cbv zeta.
  destruct (validate_data_shape first_name age investment_amount risk_level ev)
    as [(slot' & text & Hfirst & ->) | [Hnone _]]; [|congruence].
  assert (slot' = slot) as -> by congruence.
  now exists text.
Qed.

(** The five ways a call of [recommend_portfolio] ends. *)
Lemma recommend_portfolio_outcome (ev : intent_request) :
  let slots := currentIntent_slots ev in
  let attrs := sessionAttributes ev in
  (exists k : string,
      k ∈ ["firstName"; "age"; "investmentAmount"; "riskLevel"]%string /\
      slots !! Some k = None /\
      recommend_portfolio ev = (Raises (KeyError (Some k)), ev)) \/
  (exists first_name age investment_amount risk_level,
      has_slots slots first_name age investment_amount risk_level /\
      ((invocationSource ev = "DialogCodeHook"%string /\
        recommend_portfolio ev = (Returns (delegate attrs slots), ev)) \/
       (invocationSource ev = "DialogCodeHook"%string /\
        exists slot text,
          slot ∈ ["firstName"; "age"; "investmentAmount"; "riskLevel"]%string /\
          recommend_portfolio ev =
            (Returns
               (elicit_slot attrs (currentIntent_name ev)
                  (<[Some slot := None]> slots) (Some slot)
                  {| contentType := "PlainText"; content := text |}),
             with_slot_cleared (Some slot) ev)) \/
       (invocationSource ev <> "DialogCodeHook"%string /\
        exists initial_recommendation,
          risk_rec_map !! risk_level = Some initial_recommendation /\
          recommend_portfolio ev =
            (Returns
               (close attrs "Fulfilled"
                  {| contentType := "PlainText";
                     content := recommendation_text (Py.str first_name)
                                  initial_recommendation |}),
             ev)) \/
       (invocationSource ev <> "DialogCodeHook"%string /\
        risk_rec_map !! risk_level = None /\
        recommend_portfolio ev = (Raises (KeyError risk_level), ev)))).
Proof.
  intros slots attrs. subst slots attrs.
  destruct (slots_complete_or_missing (currentIntent_slots ev))
    as [(v1 & v2 & v3 & v4 & Hslots) | Hmissing].
  2: { left. now apply recommend_portfolio_missing_key. }
  right. exists v1, v2, v3, v4. split; [exact Hslots|].
  destruct (decide (invocationSource ev = "DialogCodeHook"%string)) as [Hsource|Hsource].
  - destruct (first_violation (rules_in_order v1 v2 v3 v4)) as [slot|] eqn:Hfirst.
    + right. left. split; [exact Hsource|].
      destruct (recommend_portfolio_elicit_eq ev _ _ _ _ slot Hslots Hsource Hfirst)
        as (text & Hrun).
      exists slot, text. split; [|exact Hrun].
      now apply first_violation_slot in Hfirst.
    + left. split; [exact Hsource|].
      now apply (recommend_portfolio_delegate_eq ev v1 v2 v3 v4).
  - right. right.
    rewrite (recommend_portfolio_fulfillment ev _ _ _ _ Hslots Hsource).
    destruct (risk_rec_map !! v4) as [rec|]; [left | right]; eauto.
Qed.

Lemma risk_rec_map_keys (k : option string) :
  k ∈ recommendation_keys <-> is_Some (risk_rec_map !! k).
Proof.
  rewrite <- elem_of_dom. unfold risk_rec_map, recommendation_keys.
  rewrite dom_list_to_map_L, elem_of_list_to_set. reflexivity.
Qed.

Lemma elicit_step (ev : intent_request)
    (first_name age investment_amount risk_level : option string) (slot : string) :
  invocationSource ev = "DialogCodeHook"%string ->
  has_slots (currentIntent_slots ev) first_name age investment_amount risk_level ->
  first_violation (rules_in_order first_name age investment_amount risk_level)
  = Some slot ->
  after_call ev = with_slot_cleared (Some slot) ev /\
  has_slots (currentIntent_slots (after_call ev))
    (cleared slot "firstName" first_name) (cleared slot "age" age)
    (cleared slot "investmentAmount" investment_amount)
    (cleared slot "riskLevel" risk_level) /\
  slot_value (currentIntent_slots (after_call ev)) slot = None /\
  S (violations (currentIntent_slots (after_call ev))) =
  violations (currentIntent_slots ev).
Proof.
  intros Hsource Hslots Hfirst.
  destruct (recommend_portfolio_elicit_eq ev _ _ _ _ slot Hslots Hsource Hfirst)
    as (text & Hrun).
  assert (Hafter : after_call ev = with_slot_cleared (Some slot) ev)
    by (unfold after_call; now rewrite Hrun).
  rewrite Hafter. split; [reflexivity|].
  pose proof (has_slots_cleared _ slot _ _ _ _ Hslots) as Hcleared.
  split; [exact Hcleared|]. split.
  - unfold slot_value, with_slot_cleared. cbn [currentIntent_slots].
    now rewrite lookup_insert_eq.
  - unfold violations.
    destruct (has_slots_values _ _ _ _ _ Hslots) as (-> & -> & -> & ->).
    destruct (has_slots_values _ _ _ _ _ Hcleared) as (E1 & E2 & E3 & E4).
    unfold with_slot_cleared. cbn [currentIntent_slots].
    rewrite E1, E2, E3, E4.
    unfold first_violation, rules_in_order in Hfirst. simpl in Hfirst.
    destruct (first_name_violation first_name) eqn:Hn;
      [|destruct (age_violation age) eqn:Ha;
        [|destruct (amount_violation investment_amount) eqn:Hm;
          [|destruct (risk_violation risk_level) eqn:Hr]]];
      simpl in Hfirst; inversion Hfirst; subst slot; unfold cleared; simpl;
      rewrite ?Hn, ?Ha, ?Hm, ?Hr; reflexivity.
Qed.

Lemma dispatch_by_name (ev : intent_request) :
  (currentIntent_name ev = "RecommendPortfolio"%string ->
   lambda_handler tt ev = recommend_portfolio ev) /\
  (currentIntent_name ev <> "RecommendPortfolio"%string ->
   lambda_handler tt ev =
   (Raises (Exception ("Intent with name " +:+ currentIntent_name ev +:+
                       " not supported")), ev)).
Proof.
  split; intros Hname.
  - now apply lambda_handler_recommend.
  - unfold lambda_handler, dispatch, bind, read.
    apply String.eqb_neq in Hname. now rewrite Hname.
Qed.

(** X5: [lambda_handler] raises the unsupported-intent exception exactly
    when the intent name is not RecommendPortfolio (the match is exact, case
    included); the text names the intent, and the event is left as it was,
    whatever its slots are. *)
Theorem lambda_handler_unsupported_intent (ev : intent_request) (text : string) :
  let unsupported :=
    ("Intent with name " +:+ currentIntent_name ev +:+ " not supported")%string in
  (fst (lambda_handler tt ev) = Raises (Exception text) ->
   currentIntent_name ev <> "RecommendPortfolio"%string /\ text = unsupported) /\
  (currentIntent_name ev <> "RecommendPortfolio"%string ->
   lambda_handler tt ev = (Raises (Exception unsupported), ev)).
Proof.
  intros unsupported. subst unsupported.
  pose proof (proj2 (dispatch_by_name ev)) as Hother.
  split; [|exact Hother].
  destruct (decide (currentIntent_name ev = "RecommendPortfolio"%string))
    as [Hname|Hname].
  - rewrite lambda_handler_recommend by assumption.
    destruct (recommend_portfolio_outcome ev)
      as [(k & _ & _ & ->) | (v1 & v2 & v3 & v4 & _ &
           [[_ ->] | [(_ & slot & msg & _ & ->) | [(_ & rec & _ & ->) | (_ & _ & ->)]]])];
      discriminate.
  - rewrite Hother by assumption. simpl. intros Heq.
    split; [assumption | congruence].
Qed.

(** X6: in any phase other than DialogCodeHook, with the four slots in the
    bag, the handler returns the Close response when the risk level is one of
    the six keys of the table, and otherwise raises a KeyError that carries
    the risk level, [None] when the slot is absent; the event is unchanged. *)
Theorem recommend_portfolio_fulfils_known_levels (ev : intent_request)
    (first_name age investment_amount risk_level : option string) :
  invocationSource ev <> "DialogCodeHook"%string ->
  has_slots (currentIntent_slots ev) first_name age investment_amount risk_level ->
  (risk_level ∈ recommendation_keys ->
   exists initial_recommendation,
     risk_rec_map !! risk_level = Some initial_recommendation /\
     recommend_portfolio ev =
       (Returns {| response_sessionAttributes := sessionAttributes ev;
                   dialogAction :=
                     Close "Fulfilled"
                       {| contentType := "PlainText";
                          content := recommendation_text (Py.str first_name)
                                       initial_recommendation |} |},
        ev)) /\
  (risk_level ∉ recommendation_keys ->
   recommend_portfolio ev = (Raises (KeyError risk_level), ev)).
Proof.
  intros Hsource Hslots.
  rewrite (recommend_portfolio_fulfillment ev _ _ _ _ Hslots Hsource).
  rewrite risk_rec_map_keys. split.
  - intros [rec Hrec]. exists rec. now rewrite Hrec.
  - intros Hnot. destruct (risk_rec_map !! risk_level) as [rec|] eqn:Hrec;
      [|reflexivity].
    exfalso. apply Hnot. now exists rec.
Qed.

(** X7: a call of [lambda_handler] never changes the intent name, the
    invocation source or the session attributes of the event, never adds a
    key to the slot bag or removes one, and never gives a slot a value: each
    slot is as it was or is [None]. *)
Theorem lambda_handler_frame (ev : intent_request) :
  let ev' := snd (lambda_handler tt ev) in
  currentIntent_name ev' = currentIntent_name ev /\
  invocationSource ev' = invocationSource ev /\
  sessionAttributes ev' = sessionAttributes ev /\
  dom (currentIntent_slots ev') = dom (currentIntent_slots ev) /\
  forall k,
    currentIntent_slots ev' !! k = currentIntent_slots ev !! k \/
    currentIntent_slots ev' !! k = Some None.
Proof.
  intros ev'. subst ev'.
  assert (Hsame : forall out, lambda_handler tt ev = (out, ev) ->
    let ev' := snd (lambda_handler tt ev) in
    currentIntent_name ev' = currentIntent_name ev /\
    invocationSource ev' = invocationSource ev /\
    sessionAttributes ev' = sessionAttributes ev /\
    dom (currentIntent_slots ev') = dom (currentIntent_slots ev) /\
    forall k,
      currentIntent_slots ev' !! k = currentIntent_slots ev !! k \/
      currentIntent_slots ev' !! k = Some None).
  { intros out ->. simpl. repeat apply conj; try reflexivity. intros k. now left. }
  destruct (decide (currentIntent_name ev = "RecommendPortfolio"%string))
    as [Hname|Hname].
  2: { eapply Hsame.
       apply (proj2 (dispatch_by_name ev) Hname). }
  pose proof (lambda_handler_recommend tt ev Hname) as Hrun.
  destruct (recommend_portfolio_outcome ev)
    as [(k & _ & _ & E) | (v1 & v2 & v3 & v4 & Hslots &
         [[_ E] | [(_ & slot & msg & Hin & E) | [(_ & rec & _ & E) | (_ & _ & E)]]])];
    rewrite E in Hrun; try (eapply Hsame; exact Hrun).
  rewrite Hrun. simpl. repeat apply conj; try reflexivity.
  - apply dom_insert_lookup_L.
    destruct Hslots as (H1 & H2 & H3 & H4).
    apply list_elem_of_In in Hin. simpl in Hin.
    destruct Hin as [<- | [<- | [<- | [<- | []]]]]; eauto.
  - intros k. destruct (decide (Some slot = k)) as [<- | Hne].
    + right. apply lookup_insert_eq.
    + left. now apply lookup_insert_ne.
Qed.

Lemma violatedSlot_first_violation
    (first_name age investment_amount risk_level : option string) (req : intent_request) :
  violatedSlot (validate_data first_name age investment_amount risk_level req) =
  first_violation (rules_in_order first_name age investment_amount risk_level) /\
  (isValid (validate_data first_name age investment_amount risk_level req) = true <->
   first_violation (rules_in_order first_name age investment_amount risk_level)
   = None).
Proof.
  destruct (validate_data_shape first_name age investment_amount risk_level req)
    as [(slot & text & -> & ->) | [-> ->]]; simpl; intuition discriminate.
Qed.

(** A cleared slot is not the first violation. *)
Lemma first_violation_not_cleared
    (first_name age investment_amount risk_level : option string) (slot : string) :
  first_violation
    (rules_in_order (cleared slot "firstName" first_name) (cleared slot "age" age)
       (cleared slot "investmentAmount" investment_amount)
       (cleared slot "riskLevel" risk_level))
  <> Some slot.
Proof.
  unfold first_violation, rules_in_order, cleared. simpl.
  destruct (String.eqb_spec slot "firstName") as [-> | H1]; simpl.
  { destruct (age_violation age), (amount_violation investment_amount),
      (risk_violation risk_level); simpl; discriminate. }
  destruct (first_name_violation first_name); simpl; [congruence|].
  destruct (String.eqb_spec slot "age") as [-> | H2]; simpl.
  { destruct (amount_violation investment_amount), (risk_violation risk_level);
      simpl; discriminate. }
  destruct (age_violation age); simpl; [congruence|].
  destruct (String.eqb_spec slot "investmentAmount") as [-> | H3]; simpl.
  { destruct (risk_violation risk_level); simpl; discriminate. }
  destruct (amount_violation investment_amount); simpl; [congruence|].
  destruct (String.eqb_spec slot "riskLevel") as [-> | H4]; simpl;
    [discriminate|].
  destruct (risk_violation risk_level); simpl; congruence.
Qed.

Lemma has_slots_unique (slots : slot_bag) (v1 v2 v3 v4 w1 w2 w3 w4 : option string) :
  has_slots slots v1 v2 v3 v4 -> has_slots slots w1 w2 w3 w4 ->
  v1 = w1 /\ v2 = w2 /\ v3 = w3 /\ v4 = w4.
Proof.
  intros (H1 & H2 & H3 & H4) (G1 & G2 & G3 & G4).
  repeat split; congruence.
Qed.

(** X8: what a response that [lambda_handler] returns carries.  Its session
    attributes are those of the request.  An ElicitSlot names the intent of
    the request and one of the four slots, has a PlainText message, and its
    slot bag is the slot bag of the event as the call leaves it, with the
    elicited slot [None]; a Delegate carries the slot bag of the unchanged
    event; a Close is Fulfilled with a PlainText message and leaves the event
    unchanged.  ElicitSlot and Delegate are returned in the DialogCodeHook
    phase only, Close in the other phases only. *)
Theorem lambda_handler_response_shape (ev ev' : intent_request) (r : response) :
  lambda_handler tt ev = (Returns r, ev') ->
  response_sessionAttributes r = sessionAttributes ev /\
  match dialogAction r with
  | ElicitSlot intent_name slots slot_to_elicit msg =>
      intent_name = currentIntent_name ev /\
      slots = currentIntent_slots ev' /\
      (exists k : string,
          slot_to_elicit = Some k /\
          k ∈ ["firstName"; "age"; "investmentAmount"; "riskLevel"]%string /\
          slots !! Some k = Some None) /\
      contentType msg = "PlainText"%string /\
      invocationSource ev = "DialogCodeHook"%string
  | Delegate slots =>
      slots = currentIntent_slots ev /\ ev' = ev /\
      invocationSource ev = "DialogCodeHook"%string
  | Close fulfillment_state msg =>
      fulfillment_state = "Fulfilled"%string /\
      contentType msg = "PlainText"%string /\ ev' = ev /\
      invocationSource ev <> "DialogCodeHook"%string
  end.
Proof.
  intros Hrun.
  destruct (decide (currentIntent_name ev = "RecommendPortfolio"%string))
    as [Hname|Hname].
  2: { rewrite (proj2 (dispatch_by_name ev) Hname) in Hrun. discriminate. }
  rewrite (proj1 (dispatch_by_name ev) Hname) in Hrun.
  destruct (recommend_portfolio_outcome ev)
    as [(k & _ & _ & E) | (v1 & v2 & v3 & v4 & Hslots &
         [[Hsource E] | [(Hsource & slot & msg & Hin & E)
                        | [(Hsource & rec & _ & E) | (_ & _ & E)]]])];
    rewrite E in Hrun; inversion Hrun; subst; simpl;
    repeat apply conj; try reflexivity; try assumption.
  exists slot. repeat apply conj; [reflexivity | assumption | apply lookup_insert_eq].
Qed.

(** X9: when a dialog call elicits a slot, the event it leaves has that slot
    cleared and one rule fewer in violation, and validating the slots of
    that event does not report the same slot again. *)
Theorem recommend_portfolio_elicit_progress (ev : intent_request)
    (first_name age investment_amount risk_level : option string) :
  invocationSource ev = "DialogCodeHook"%string ->
  has_slots (currentIntent_slots ev) first_name age investment_amount risk_level ->
  isValid (validate_data first_name age investment_amount risk_level ev) = false ->
  exists slot : string,
    violatedSlot (validate_data first_name age investment_amount risk_level ev)
    = Some slot /\
    slot_value (currentIntent_slots (after_call ev)) slot = None /\
    S (violations (currentIntent_slots (after_call ev))) =
    violations (currentIntent_slots ev) /\
    forall first_name' age' investment_amount' risk_level',
      has_slots (currentIntent_slots (after_call ev))
        first_name' age' investment_amount' risk_level' ->
      violatedSlot
        (validate_data first_name' age' investment_amount' risk_level' (after_call ev))
      <> Some slot.
Proof.
  intros Hsource Hslots Hinvalid.
  destruct (violatedSlot_first_violation first_name age investment_amount
              risk_level ev) as [Hslot Hvalid].
  destruct (first_violation
              (rules_in_order first_name age investment_amount risk_level))
    as [slot|] eqn:Hfirst.
  2: { rewrite (proj2 Hvalid eq_refl) in Hinvalid. discriminate. }
  destruct (elicit_step ev _ _ _ _ slot Hsource Hslots Hfirst)
    as (_ & Hcleared & Hvalue & Hcount).
  exists slot. repeat apply conj; try assumption.
  intros w1 w2 w3 w4 Hslots'.
  destruct (has_slots_unique _ _ _ _ _ _ _ _ _ Hslots' Hcleared)
    as (-> & -> & -> & ->).
  rewrite (proj1 (violatedSlot_first_violation _ _ _ _ _)).
  apply first_violation_not_cleared.
Qed.

Lemma violations_none (slots : slot_bag)
    (first_name age investment_amount risk_level : option string) :
  has_slots slots first_name age investment_amount risk_level ->
  violations slots <= 4 /\
  (violations slots = 0 <->
   first_violation (rules_in_order first_name age investment_amount risk_level)
   = None).
Proof.
  intros Hslots. rewrite first_violation_none. unfold violations.
  destruct (has_slots_values _ _ _ _ _ Hslots) as (-> & -> & -> & ->).
  destruct (first_name_violation first_name), (age_violation age),
    (amount_violation investment_amount), (risk_violation risk_level);
    simpl; split; try lia; intuition (discriminate || lia).
Qed.

Lemma settles_after (n : nat) :
  forall (ev : intent_request)
         (first_name age investment_amount risk_level : option string),
    violations (currentIntent_slots ev) = n ->
    invocationSource ev = "DialogCodeHook"%string ->
    has_slots (currentIntent_slots ev) first_name age investment_amount risk_level ->
    (forall k, k < n ->
       exists slots slot msg,
         fst (recommend_portfolio (Nat.iter k after_call ev)) =
         Returns (elicit_slot (sessionAttributes ev) (currentIntent_name ev)
                    slots (Some slot) msg)) /\
    fst (recommend_portfolio (Nat.iter n after_call ev)) =
    Returns (delegate (sessionAttributes ev)
               (currentIntent_slots (Nat.iter n after_call ev))).
Proof.
  induction n as [|n IH]; intros ev v1 v2 v3 v4 Hcount Hsource Hslots.
  - split; [intros k Hk; lia|]. simpl.
    rewrite (recommend_portfolio_delegate_eq ev v1 v2 v3 v4); try assumption;
      [reflexivity|].
    now apply (violations_none _ _ _ _ _ Hslots).
  - destruct (first_violation (rules_in_order v1 v2 v3 v4)) as [slot|] eqn:Hfirst.
    2: { apply (violations_none _ _ _ _ _ Hslots) in Hfirst. lia. }
    destruct (elicit_step ev _ _ _ _ slot Hsource Hslots Hfirst)
      as (Hafter & Hcleared & _ & Hless).
    assert (Hcount' : violations (currentIntent_slots (after_call ev)) = n) by lia.
    assert (Hsource' : invocationSource (after_call ev) = "DialogCodeHook"%string)
      by (now rewrite Hafter).
    destruct (IH (after_call ev) _ _ _ _ Hcount' Hsource' Hcleared)
      as [Helicits Hdelegate].
    assert (Hattrs : sessionAttributes (after_call ev) = sessionAttributes ev)
      by (now rewrite Hafter).
    assert (Hname : currentIntent_name (after_call ev) = currentIntent_name ev)
      by (now rewrite Hafter).
    rewrite Hattrs, ?Hname in *.
    split.
    + intros [|k] Hk.
      * destruct (recommend_portfolio_elicit_eq ev _ _ _ _ slot Hslots Hsource Hfirst)
          as (text & Hrun).
        simpl. rewrite Hrun. now eexists _, _, _.
      * rewrite Nat.iter_succ_r. apply Helicits. lia.
    + rewrite Nat.iter_succ_r. exact Hdelegate.
Qed.

(** X10: called again and again on the event it leaves, the dialog handler
    elicits once for each rule in violation and then delegates: with [n] rules in violation, [n] at most 4, the calls
    before the [n]-th return ElicitSlot and the [n]-th returns Delegate. *)
Theorem recommend_portfolio_settles (ev : intent_request)
    (first_name age investment_amount risk_level : option string) :
  invocationSource ev = "DialogCodeHook"%string ->
  has_slots (currentIntent_slots ev) first_name age investment_amount risk_level ->
  let n := violations (currentIntent_slots ev) in
  let call k := fst (recommend_portfolio (Nat.iter k after_call ev)) in
  n <= 4 /\
  (forall k, k < n ->
     exists slots slot msg,
       call k =
       Returns {| response_sessionAttributes := sessionAttributes ev;
                  dialogAction :=
                    ElicitSlot (currentIntent_name ev) slots (Some slot) msg |}) /\
  call n =
  Returns {| response_sessionAttributes := sessionAttributes ev;
             dialogAction :=
               Delegate (currentIntent_slots (Nat.iter n after_call ev)) |}.
Proof.
  intros Hsource Hslots n call. subst n call.
  split; [now apply (violations_none _ _ _ _ _ Hslots)|].
  now apply (settles_after _ ev first_name age investment_amount risk_level).
Qed.

(** X11: Maximum is the only level that the validator accepts and the
    table lacks: when the slots pass validation with a present risk level
    other than Maximum, the handler in a phase other than DialogCodeHook
    returns the Close response. *)
Theorem recommend_portfolio_validated_level_closes (ev : intent_request)
    (first_name age investment_amount : option string) (level : string) :
  has_slots (currentIntent_slots ev) first_name age investment_amount (Some level) ->
  isValid (validate_data first_name age investment_amount (Some level) ev) = true ->
  level <> "Maximum"%string ->
  invocationSource ev <> "DialogCodeHook"%string ->
  exists initial_recommendation,
    risk_rec_map !! Some level = Some initial_recommendation /\
    recommend_portfolio ev =
      (Returns {| response_sessionAttributes := sessionAttributes ev;
                  dialogAction :=
                    Close "Fulfilled"
                      {| contentType := "PlainText";
                         content := recommendation_text (Py.str first_name)
                                      initial_recommendation |} |},
       ev).
Proof.
  intros Hslots Hvalid Hlevel Hsource.
  apply (violatedSlot_first_violation _ _ _ _ ev) in Hvalid.
  apply first_violation_none in Hvalid as (_ & _ & _ & Hrisk).
  assert (Hkey : Some level ∈ recommendation_keys).
  { unfold risk_violation in Hrisk. rewrite negb_false_iff in Hrisk.
    simpl in Hrisk. rewrite !orb_true_iff, !String.eqb_eq in Hrisk.
    unfold recommendation_keys. apply list_elem_of_In. simpl.
    intuition (subst; auto; congruence). }
  apply risk_rec_map_keys in Hkey as [rec Hrec].
  exists rec. split; [exact Hrec|].
  rewrite (recommend_portfolio_fulfillment ev _ _ _ _ Hslots Hsource).
  now rewrite Hrec.
Qed.

End Handler.

(** ** The properties at concrete requests *)

(** An age of 64 with the other slots valid: the upper bound is accepted. *)
Lemma validate_data_age_bounds_at_64 :
  let ev := event "DialogCodeHook" (Some "Jo") (Some "64") (Some "10000") (Some "Mid") in
  (Py.int default_max_str_digits "64" = Some 64%Z /\
   first_name_violation (Some "Jo"%string) = false /\
   amount_violation (Some "10000"%string) = false /\
   risk_violation (Some "Mid"%string) = false) /\
  isValid (validate_data default_max_str_digits print_3000 (Some "Jo") (Some "64") (Some "10000") (Some "Mid") ev)
  = true.
Proof.
  intros ev.
  assert (H1 : Py.int default_max_str_digits "64" = Some 64%Z) by (vm_compute; reflexivity).
  assert (H2 : first_name_violation (Some "Jo"%string) = false) by reflexivity.
  assert (H3 : amount_violation (Some "10000"%string) = false)
    by (vm_compute; reflexivity).
  assert (H4 : risk_violation (Some "Mid"%string) = false) by reflexivity.
  split; [easy|].
  apply (validate_data_age_bounds default_max_str_digits print_3000 _ _ _ _ _ ev H1 H2 H3 H4). lia.
Defined.

(** The risk level high, in lower case, is not one of the seven. *)
Lemma validate_data_risk_levels_at_high :
  let ev := event "DialogCodeHook" (Some "Jo") (Some "30") (Some "10000") (Some "high") in
  let r := validate_data default_max_str_digits print_3000 (Some "Jo") (Some "30") (Some "10000") (Some "high") ev in
  (first_name_violation (Some "Jo"%string) = false /\
   age_violation default_max_str_digits (Some "30"%string) = false /\
   amount_violation (Some "10000"%string) = false) /\
  isValid r = false /\ violatedSlot r = Some "riskLevel"%string.
Proof.
  intros ev r. subst r.
  assert (H1 : first_name_violation (Some "Jo"%string) = false) by reflexivity.
  assert (H2 : age_violation default_max_str_digits (Some "30"%string) = false)
    by (vm_compute; reflexivity).
  assert (H3 : amount_violation (Some "10000"%string) = false)
    by (vm_compute; reflexivity).
  split; [easy|].
  apply (validate_data_risk_levels default_max_str_digits print_3000 _ _ _ "high" ev H1 H2 H3).
  intros H. repeat (destruct H as [H|H]; [discriminate|]). discriminate.
Defined.

(** The age 30.5 is not an integer literal: it is accepted. *)
Lemma validate_data_accepts_unparsable_at_30_5 :
  let ev := event "DialogCodeHook" (Some "Jo") (Some "30.5") (Some "10000") (Some "Mid") in
  (first_name_violation (Some "Jo"%string) = false /\
   risk_violation (Some "Mid"%string) = false /\
   Py.int default_max_str_digits "30.5" = None /\
   amount_violation (Some "10000"%string) = false) /\
  validate_data default_max_str_digits print_3000 (Some "Jo") (Some "30.5") (Some "10000") (Some "Mid") ev =
  {| isValid := true; violatedSlot := None; message := None |}.
Proof.
  intros ev.
  assert (H1 : first_name_violation (Some "Jo"%string) = false) by reflexivity.
  assert (H2 : risk_violation (Some "Mid"%string) = false) by reflexivity.
  assert (H3 : Py.int default_max_str_digits "30.5" = None) by (vm_compute; reflexivity).
  assert (H4 : amount_violation (Some "10000"%string) = false)
    by (vm_compute; reflexivity).
  split; [easy|].
  apply (validate_data_accepts_unparsable default_max_str_digits print_3000
           (Some "Jo"%string) (Some "30.5"%string) (Some "10000"%string)
           (Some "Mid"%string) "30.5" ev H1 H2).
  left. easy.
Defined.

(** The request of the first scenario of the specification: every slot is
    valid, and the handler delegates. *)
Lemma recommend_portfolio_delegates_scenario :
  let ev := event "DialogCodeHook" (Some "Jo") (Some "30") (Some "10000") (Some "Mid") in
  (invocationSource ev = "DialogCodeHook"%string /\
   has_slots (currentIntent_slots ev) (Some "Jo") (Some "30") (Some "10000") (Some "Mid") /\
   isValid (validate_data default_max_str_digits print_3000
              (Some "Jo") (Some "30") (Some "10000") (Some "Mid") ev) = true) /\
  recommend_portfolio default_max_str_digits print_3000 ev =
    (Returns {| response_sessionAttributes := None;
                dialogAction := Delegate (currentIntent_slots ev) |},
     ev).
Proof.
  intros ev.
  assert (H1 : invocationSource ev = "DialogCodeHook"%string) by reflexivity.
  assert (H2 : has_slots (currentIntent_slots ev)
                 (Some "Jo"%string) (Some "30"%string) (Some "10000"%string)
                 (Some "Mid"%string))
    by (repeat split; vm_compute; reflexivity).
  assert (H3 : isValid (validate_data default_max_str_digits print_3000
                          (Some "Jo"%string) (Some "30"%string)
                          (Some "10000"%string) (Some "Mid"%string) ev) = true)
    by (vm_compute; reflexivity).
  split; [easy|].
  exact (recommend_portfolio_delegates default_max_str_digits print_3000
           ev _ _ _ _ H1 H2 H3).
Defined.

(** The request of the second scenario: an amount of 3000 is asked for
    again, and cleared in the slot bag. *)
Lemma recommend_portfolio_elicits_scenario :
  let ev := event "DialogCodeHook" (Some "Jo") (Some "30") (Some "3000") None in
  (invocationSource ev = "DialogCodeHook"%string /\
   has_slots (currentIntent_slots ev) (Some "Jo") (Some "30") (Some "3000") None /\
   isValid (validate_data default_max_str_digits print_3000
              (Some "Jo") (Some "30") (Some "3000") None ev) = false) /\
  exists msg,
    recommend_portfolio default_max_str_digits print_3000 ev =
      (Returns {| response_sessionAttributes := None;
                  dialogAction :=
                    ElicitSlot "RecommendPortfolio"
                      (<[Some "investmentAmount"%string := None]> (currentIntent_slots ev))
                      (Some "investmentAmount"%string) msg |},
       with_slot_cleared (Some "investmentAmount"%string) ev).
Proof.
  intros ev.
  assert (H1 : invocationSource ev = "DialogCodeHook"%string) by reflexivity.
  assert (H2 : has_slots (currentIntent_slots ev)
                 (Some "Jo"%string) (Some "30"%string) (Some "3000"%string) None)
    by (repeat split; vm_compute; reflexivity).
  assert (H3 : isValid (validate_data default_max_str_digits print_3000
                          (Some "Jo"%string) (Some "30"%string)
                          (Some "3000"%string) None ev) = false)
    by (vm_compute; reflexivity).
  split; [easy|].
  destruct (recommend_portfolio_elicits_violated_slot
              default_max_str_digits print_3000 ev _ _ _ _ H1 H2 H3)
    as (slot & msg & Hslot & _ & _ & Hrun & _).
  assert (Hamount : slot = "investmentAmount"%string).
  { vm_compute in Hslot. now injection Hslot as <-. }
  subst slot. now exists msg.
Defined.

(** The request of the third scenario, with an age of 200 that the validator
    would reject: the handler closes with the recommendation for High. *)
Lemma recommend_portfolio_closes_scenario :
  let ev := event "FulfillmentCodeHook" (Some "Jo") (Some "200") None (Some "High") in
  let text :=
    recommendation_text "Jo" "20% bonds (AGG), 80% equities (SPY)" in
  (invocationSource ev = "FulfillmentCodeHook"%string /\
   has_slots (currentIntent_slots ev) (Some "Jo") (Some "200") None (Some "High") /\
   risk_rec_map !! Some "High"%string = Some "20% bonds (AGG), 80% equities (SPY)"%string) /\
  recommend_portfolio default_max_str_digits print_3000 ev =
    (Returns {| response_sessionAttributes := None;
                dialogAction :=
                  Close "Fulfilled"
                    {| contentType := "PlainText"; content := text |} |},
     ev) /\
  contains text "20% bonds (AGG), 80% equities (SPY)" /\
  contains text "Jo".
Proof.
  intros ev text.
  assert (H1 : invocationSource ev = "FulfillmentCodeHook"%string) by reflexivity.
  assert (H2 : has_slots (currentIntent_slots ev)
                 (Some "Jo"%string) (Some "200"%string) None (Some "High"%string))
    by (repeat split; vm_compute; reflexivity).
  assert (H3 : risk_rec_map !! Some "High"%string =
               Some "20% bonds (AGG), 80% equities (SPY)"%string)
    by (vm_compute; reflexivity).
  split; [easy|].
  destruct (recommend_portfolio_closes default_max_str_digits print_3000
              ev _ _ _ _ _ H1 H2 H3) as (Hrun & Hrec & Hname).
  split; [exact Hrun | split; [exact Hrec | now apply Hname]].
Defined.

(** Slots that are present with the value [None] are absent slots: nothing
    is validated and the handler delegates. *)
Example recommend_portfolio_absent_slots :
  let ev := event "DialogCodeHook" None None None None in
  recommend_portfolio default_max_str_digits print_3000 ev =
    (Returns {| response_sessionAttributes := None;
                dialogAction := Delegate (currentIntent_slots ev) |},
     ev).
Proof.
  intros ev.
  apply (recommend_portfolio_dialog default_max_str_digits print_3000 ev
           None None None None); [|reflexivity].
  repeat split; vm_compute; reflexivity.
Qed.

(** An intent other than RecommendPortfolio is not supported. *)
Example lambda_handler_unknown_intent :
  let ev :=
    {| currentIntent_name := "Unknown";
       currentIntent_slots := ∅;
       invocationSource := "DialogCodeHook";
       sessionAttributes := None |} in
  lambda_handler default_max_str_digits print_3000 tt ev =
    (Raises (Exception "Intent with name Unknown not supported"), ev).
Proof. reflexivity. Qed.

(** A fulfillment request with the risk level Maximum. *)
Lemma recommend_portfolio_maximum_raises_scenario :
  let ev := event "FulfillmentCodeHook" (Some "Jo") (Some "30") (Some "10000") (Some "Maximum") in
  (invocationSource ev = "FulfillmentCodeHook"%string /\
   currentIntent_slots ev !! Some "riskLevel"%string = Some (Some "Maximum"%string)) /\
  lambda_handler default_max_str_digits print_3000 tt ev =
    (Raises (KeyError (Some "Maximum"%string)), ev).
Proof.
  intros ev.
  assert (H1 : invocationSource ev = "FulfillmentCodeHook"%string) by reflexivity.
  assert (H2 : currentIntent_slots ev !! Some "riskLevel"%string =
               Some (Some "Maximum"%string)) by (vm_compute; reflexivity).
  split; [easy|].
  destruct (recommend_portfolio_maximum_raises default_max_str_digits print_3000
              ev H1 H2) as (_ & _ & _ & key & _ & Hhandler & Hkey).
  rewrite (Hkey (Some "Jo"%string) (Some "30"%string) (Some "10000"%string))
    in Hhandler by (repeat split; vm_compute; reflexivity).
  now apply Hhandler.
Defined.

(** A request whose slot bag has no age key. *)
Lemma recommend_portfolio_needs_slot_keys_scenario :
  let ev := event_without_age "DialogCodeHook" in
  ("age"%string ∈ ["firstName"; "age"; "investmentAmount"; "riskLevel"]%string /\
   currentIntent_slots ev !! Some "age"%string = None) /\
  lambda_handler default_max_str_digits print_3000 tt ev =
    (Raises (KeyError (Some "age"%string)), ev).
Proof.
  intros ev.
  assert (H1 : "age"%string ∈ ["firstName"; "age"; "investmentAmount"; "riskLevel"]%string)
    by (apply list_elem_of_In; simpl; tauto).
  assert (H2 : currentIntent_slots ev !! Some "age"%string = None)
    by (vm_compute; reflexivity).
  split; [easy|].
  destruct (recommend_portfolio_needs_slot_keys default_max_str_digits print_3000
              ev "age" H1 H2) as (k' & Hin & Hk' & _ & Hhandler).
  assert (Hage : k' = "age"%string).
  { apply list_elem_of_In in Hin. simpl in Hin.
    destruct Hin as [<- | [<- | [<- | [<- | []]]]];
      [vm_compute in Hk'; discriminate | reflexivity
      | vm_compute in Hk'; discriminate | vm_compute in Hk'; discriminate]. }
  subst k'. now apply Hhandler.
Defined.

(** ** The further properties at concrete requests *)

(** An age of 0 gets the at-least-1-year message. *)
Lemma validate_data_age_messages_at_0 :
  let ev := event "DialogCodeHook" (Some "Jo") (Some "0") None None in
  (Py.int default_max_str_digits "0" = Some 0%Z /\
   first_name_violation (Some "Jo"%string) = false) /\
  validate_data default_max_str_digits print_3000 (Some "Jo") (Some "0") None None ev =
  {| isValid := false;
     violatedSlot := Some "age"%string;
     message := Some {| contentType := "PlainText"; content := too_young_text |} |}.
Proof.
  intros ev.
  assert (H1 : Py.int default_max_str_digits "0" = Some 0%Z)
    by (vm_compute; reflexivity).
  assert (H2 : first_name_violation (Some "Jo"%string) = false) by reflexivity.
  split; [easy|].
  apply (validate_data_age_messages default_max_str_digits print_3000
           _ None None "0" 0 ev H1 H2). lia.
Defined.

(** An amount of exactly 5000 is too low. *)
Lemma validate_data_amount_bound_at_5000 :
  let ev := event "DialogCodeHook" None None (Some "5000") None in
  (Py.float "5000" = Some (Py.float_of_int 5000) /\
   first_name_violation None = false /\
   age_violation default_max_str_digits None = false) /\
  violatedSlot
    (validate_data default_max_str_digits print_3000 None None (Some "5000") None ev)
  = Some "investmentAmount"%string.
Proof.
  intros ev.
  assert (H1 : Py.float "5000" = Some (Py.float_of_int 5000))
    by (vm_compute; reflexivity).
  assert (H2 : first_name_violation None = false) by reflexivity.
  assert (H3 : age_violation default_max_str_digits None = false) by reflexivity.
  split; [easy|].
  destruct (validate_data_amount_bound default_max_str_digits print_3000
              None None None "5000" _ ev H1 H2 H3) as [Hlow _].
  now rewrite Hlow by (vm_compute; reflexivity).
Defined.

(** The amount nan is accepted. *)
Lemma validate_data_amount_special_at_nan :
  let ev := event "DialogCodeHook" (Some "Jo") (Some "30") (Some "nan") (Some "Mid") in
  (Py.float "nan" = Some S754_nan /\
   first_name_violation (Some "Jo"%string) = false /\
   age_violation default_max_str_digits (Some "30"%string) = false /\
   risk_violation (Some "Mid"%string) = false) /\
  isValid (validate_data default_max_str_digits print_3000
             (Some "Jo") (Some "30") (Some "nan") (Some "Mid") ev) = true.
Proof.
  intros ev.
  assert (H1 : Py.float "nan" = Some S754_nan) by (vm_compute; reflexivity).
  assert (H2 : first_name_violation (Some "Jo"%string) = false) by reflexivity.
  assert (H3 : age_violation default_max_str_digits (Some "30"%string) = false)
    by (vm_compute; reflexivity).
  assert (H4 : risk_violation (Some "Mid"%string) = false) by reflexivity.
  split; [easy|].
  exact (validate_data_amount_special default_max_str_digits print_3000
           _ _ _ "nan" S754_nan ev H1 H2 H3 H4).
Defined.

(** The intent name in lower case is not supported. *)
Lemma lambda_handler_unsupported_intent_lower_case :
  let ev :=
    {| currentIntent_name := "recommendportfolio";
       currentIntent_slots := ∅;
       invocationSource := "DialogCodeHook";
       sessionAttributes := None |} in
  currentIntent_name ev <> "RecommendPortfolio"%string /\
  lambda_handler default_max_str_digits print_3000 tt ev =
    (Raises (Exception "Intent with name recommendportfolio not supported"), ev).
Proof.
  intros ev.
  assert (H1 : currentIntent_name ev <> "RecommendPortfolio"%string) by discriminate.
  split; [exact H1|].
  exact (proj2 (lambda_handler_unsupported_intent default_max_str_digits print_3000
                  ev EmptyString) H1).
Defined.

(** A request with no invocation source and no risk level: the KeyError
    carries [None]. *)
Lemma recommend_portfolio_fulfils_known_levels_at_none :
  let ev := event EmptyString (Some "Jo") None None None in
  (invocationSource ev <> "DialogCodeHook"%string /\
   has_slots (currentIntent_slots ev) (Some "Jo") None None None /\
   None ∉ recommendation_keys) /\
  recommend_portfolio default_max_str_digits print_3000 ev =
    (Raises (KeyError None), ev).
Proof.
  intros ev.
  assert (H1 : invocationSource ev <> "DialogCodeHook"%string) by discriminate.
  assert (H2 : has_slots (currentIntent_slots ev) (Some "Jo"%string) None None None)
    by (repeat split; vm_compute; reflexivity).
  assert (H3 : None ∉ recommendation_keys).
  { intros Hin. apply list_elem_of_In in Hin. simpl in Hin.
    repeat (destruct Hin as [Hin|Hin]; [discriminate|]). exact Hin. }
  split; [easy|].
  exact (proj2 (recommend_portfolio_fulfils_known_levels
                  default_max_str_digits print_3000 ev _ _ _ _ H1 H2) H3).
Defined.

(** The response to a request with an empty first name. *)
Lemma lambda_handler_response_shape_at_empty_name :
  let ev := event "DialogCodeHook" (Some EmptyString) (Some "200") None None in
  let ev' := with_slot_cleared (Some "firstName"%string) ev in
  let r :=
    {| response_sessionAttributes := None;
       dialogAction :=
         ElicitSlot "RecommendPortfolio" (currentIntent_slots ev')
           (Some "firstName"%string)
           {| contentType := "PlainText"; content := empty_name_text |} |} in
  lambda_handler default_max_str_digits print_3000 tt ev = (Returns r, ev') /\
  response_sessionAttributes r = sessionAttributes ev /\
  currentIntent_slots ev' !! Some "firstName"%string = Some None.
Proof.
  intros ev ev' r.
  assert (H1 : lambda_handler default_max_str_digits print_3000 tt ev
               = (Returns r, ev')) by (vm_compute; reflexivity).
  split; [exact H1|].
  destruct (lambda_handler_response_shape default_max_str_digits print_3000
              ev ev' r H1) as (Hattrs & _ & _ & (k & Hk & _ & Hnone) & _).
  split; [exact Hattrs|].
  simpl in Hk. injection Hk as <-. exact Hnone.
Defined.

(** An empty first name and an age of 200: after the call one rule is left
    in violation, and the first name is not asked for again. *)
Lemma recommend_portfolio_elicit_progress_at_empty_name :
  let ev := event "DialogCodeHook" (Some EmptyString) (Some "200") None None in
  (invocationSource ev = "DialogCodeHook"%string /\
   has_slots (currentIntent_slots ev) (Some EmptyString) (Some "200") None None /\
   isValid (validate_data default_max_str_digits print_3000
              (Some EmptyString) (Some "200") None None ev) = false) /\
  exists slot : string,
    slot_value
      (currentIntent_slots (after_call default_max_str_digits print_3000 ev)) slot
    = None /\
    S (violations default_max_str_digits
         (currentIntent_slots (after_call default_max_str_digits print_3000 ev))) =
    violations default_max_str_digits (currentIntent_slots ev).
Proof.
  intros ev.
  assert (H1 : invocationSource ev = "DialogCodeHook"%string) by reflexivity.
  assert (H2 : has_slots (currentIntent_slots ev)
                 (Some EmptyString) (Some "200"%string) None None)
    by (repeat split; vm_compute; reflexivity).
  assert (H3 : isValid (validate_data default_max_str_digits print_3000
                          (Some EmptyString) (Some "200"%string) None None ev)
               = false) by (vm_compute; reflexivity).
  split; [easy|].
  destruct (recommend_portfolio_elicit_progress default_max_str_digits print_3000
              ev _ _ _ _ H1 H2 H3) as (slot & _ & Hvalue & Hcount & _).
  now exists slot.
Defined.

(** An empty first name and an age of 200: the third call delegates. *)
Lemma recommend_portfolio_settles_at_empty_name :
  let ev := event "DialogCodeHook" (Some EmptyString) (Some "200") None None in
  let n := violations default_max_str_digits (currentIntent_slots ev) in
  (invocationSource ev = "DialogCodeHook"%string /\
   has_slots (currentIntent_slots ev) (Some EmptyString) (Some "200") None None) /\
  n = 2 /\
  fst (recommend_portfolio default_max_str_digits print_3000
         (Nat.iter n (after_call default_max_str_digits print_3000) ev)) =
  Returns
    {| response_sessionAttributes := None;
       dialogAction :=
         Delegate
           (currentIntent_slots
              (Nat.iter n (after_call default_max_str_digits print_3000) ev)) |}.
Proof.
  intros ev n.
  assert (H1 : invocationSource ev = "DialogCodeHook"%string) by reflexivity.
  assert (H2 : has_slots (currentIntent_slots ev)
                 (Some EmptyString) (Some "200"%string) None None)
    by (repeat split; vm_compute; reflexivity).
  split; [easy|].
  split; [vm_compute; reflexivity|].
  exact (proj2 (proj2 (recommend_portfolio_settles default_max_str_digits print_3000
                         ev _ _ _ _ H1 H2))).
Defined.

(** Slots that pass validation with the level Mid are fulfilled. *)
Lemma recommend_portfolio_validated_level_closes_at_mid :
  let ev := event "FulfillmentCodeHook" (Some "Jo") (Some "30") (Some "10000") (Some "Mid") in
  (has_slots (currentIntent_slots ev) (Some "Jo") (Some "30") (Some "10000") (Some "Mid") /\
   isValid (validate_data default_max_str_digits print_3000
              (Some "Jo") (Some "30") (Some "10000") (Some "Mid") ev) = true /\
   "Mid"%string <> "Maximum"%string /\
   invocationSource ev <> "DialogCodeHook"%string) /\
  exists initial_recommendation,
    risk_rec_map !! Some "Mid"%string = Some initial_recommendation /\
    recommend_portfolio default_max_str_digits print_3000 ev =
      (Returns {| response_sessionAttributes := None;
                  dialogAction :=
                    Close "Fulfilled"
                      {| contentType := "PlainText";
                         content := recommendation_text "Jo" initial_recommendation |} |},
       ev).
Proof.
  intros ev.
  assert (H1 : has_slots (currentIntent_slots ev)
                 (Some "Jo"%string) (Some "30"%string) (Some "10000"%string)
                 (Some "Mid"%string))
    by (repeat split; vm_compute; reflexivity).
  assert (H2 : isValid (validate_data default_max_str_digits print_3000
                          (Some "Jo"%string) (Some "30"%string)
                          (Some "10000"%string) (Some "Mid"%string) ev) = true)
    by (vm_compute; reflexivity).
  assert (H3 : "Mid"%string <> "Maximum"%string) by discriminate.
  assert (H4 : invocationSource ev <> "DialogCodeHook"%string) by discriminate.
  split; [easy|].
  exact (recommend_portfolio_validated_level_closes default_max_str_digits print_3000
           ev _ _ _ "Mid" H1 H2 H3 H4).
Defined.
